(** * gocronometer: the export parsers of parse.go

    A shallow embedding of [parse.go]: the three entry points
    [ParseServingsExport], [ParseExerciseExport] and
    [ParseBiometricRecordsExport], their helpers [parseFloat],
    [parseNutrientFloat] and [parseDateTime], and the parts of the Go
    standard library they call.

    Conventions.
    - A Go [string] is a [string] of bytes; the column names are the bytes
      of the source file (the micro sign is the two bytes C2 B5).
    - [float64] is Rocq's primitive binary64 float.
    - A Go [(T, error)] result of a helper is a sum [T + error]: in every
      helper the [T] component of a failing call is dropped by its caller.
      The entry points return Go's pair, a slice and an [option error]
      ([None] is the nil error, the list [[]] is the nil or empty slice).
    - [*time.Location] is an [option Location], [None] being nil.
    - [csv.Reader] is the list of the results its successive [Read] calls
      give; the end of the list is [io.EOF]. *)

From Stdlib Require Import ZArith Uint63 Lia Ascii.
From Corelib Require Import PrimFloat.
From stdpp Require Import base option list gmap strings.

Set Warnings "-inexact-float".
Open Scope string_scope.
Open Scope list_scope.

(** ** Errors *)

(** The two sentinel errors of package strconv. *)
Inductive strconvErr : Set := ErrSyntax | ErrRange.

(** The error values that reach a caller.  [Errorf format a] is
    [fmt.Errorf(format, a...)]: the format string is kept with its verbs
    and the operands are kept as they were passed. *)
Inductive error : Type :=
  | ReadError (msg : string)
      (* what csv.Reader.Read reports, other than io.EOF *)
  | NumError (Func Num : string) (Err : strconvErr)
      (* *strconv.NumError *)
  | ParseError (Layout Value LayoutElem ValueElem Message : string)
      (* *time.ParseError *)
  | Errorf (format : string) (a : list operand)
with operand : Type :=
  | Str (s : string)
  | Err (err : error).

(** ** Package strings *)

(** [cutAt sep s]: the text before and after the first byte [sep] of [s]. *)
Fixpoint cutAt (sep : ascii) (s : string) : option (string * string) :=
  match s with
  | EmptyString => None
  | String c rest =>
      if Ascii.eqb c sep then Some (EmptyString, rest)
      else match cutAt sep rest with
           | Some (before, after) => Some (String c before, after)
           | None => None
           end
  end.

(** [strings.SplitN(s, sep, 2)] for a separator of one byte: at most two
    substrings, the second one the unsplit remainder. *)
Definition strings_SplitN2 (s : string) (sep : ascii) : list string :=
  match cutAt sep s with
  | Some (before, after) => [before; after]
  | None => [s]
  end.

(** [strings.Contains(s, substr)]. *)
Fixpoint strings_Contains (s substr : string) : bool :=
  String.prefix substr s
  || match s with
     | EmptyString => false
     | String _ rest => strings_Contains rest substr
     end.

(** ** Package strconv *)

Definition float64 : Set := float.

(** [strconv.ParseFloat(s, bitSize)].  [atof] is the conversion itself (the
    accepted syntax and the rounding), which this development does not fix:
    it says whether the text converts and, if not, which sentinel is
    reported.  A failure is a [*NumError] that names the function and
    carries the text. *)
Definition strconv_ParseFloat (atof : string -> Z -> float64 + strconvErr)
    (s : string) (bitSize : Z) : float64 + error :=
  match atof s bitSize with
  | inl f => inl f
  | inr e => inr (NumError "ParseFloat" s e)
  end.

(** ** Package time *)

Inductive Location : Set :=
  | UTC
  | LoadLocation (name : string).

(** A [time.Time] is represented by the arguments of the [time.Date] call
    that makes it, as they are written: the record is that call, not the
    instant it denotes.  [time.ParseInLocation] calls [time.Date] with a
    month, a day, an hour and a minute it has checked against their
    ranges; what [time.Date] then does with a wall clock that the location
    skips or repeats is not represented. *)
Record Time : Set := time_Date {
  Year : Z; Month : Z; Day : Z; Hour : Z; Minute : Z; Second : Z;
  Nanosecond : Z; Loc : Location }.

Definition isDigit (c : ascii) : bool :=
  (48 <=? nat_of_ascii c)%nat && (nat_of_ascii c <=? 57)%nat.

Definition digit (c : ascii) : Z := (Z.of_nat (nat_of_ascii c) - 48)%Z.

(** [getnum(s, fixed)]: a number of one or two digits, of exactly two when
    [fixed]. *)
Definition getnum (s : string) (fixed : bool) : option (Z * string) :=
  match s with
  | String c0 rest =>
      if isDigit c0 then
        match rest with
        | String c1 rest' =>
            if isDigit c1 then Some ((digit c0 * 10 + digit c1)%Z, rest')
            else if fixed then None else Some (digit c0, rest)
        | EmptyString => if fixed then None else Some (digit c0, rest)
        end
      else None
  | EmptyString => None
  end.

(** The four-digit year of the layout element [2006]. *)
Definition getyear (s : string) : option (Z * string) :=
  match s with
  | String a (String b (String c (String d rest))) =>
      if isDigit a && isDigit b && isDigit c && isDigit d
      then Some ((((digit a * 10 + digit b) * 10 + digit c) * 10 + digit d)%Z, rest)
      else None
  | _ => None
  end.

Fixpoint cutspace (s : string) : string :=
  match s with
  | String " " rest => cutspace rest
  | _ => s
  end.

(** [skip(value, prefix)] for a literal [prefix] of one byte: a space of
    the layout stands for any run of spaces of the value. *)
Definition skip (value : string) (prefix : ascii) : option string :=
  if Ascii.eqb prefix " " then
    match value with
    | EmptyString => Some value
    | String c _ => if Ascii.eqb c " " then Some (cutspace value) else None
    end
  else
    match value with
    | String c rest => if Ascii.eqb c prefix then Some rest else None
    | EmptyString => None
    end.

Definition isLeap (year : Z) : bool :=
  (year mod 4 =? 0)%Z && (negb (year mod 100 =? 0)%Z || (year mod 400 =? 0)%Z).

Definition daysIn (month year : Z) : Z :=
  if (month =? 2)%Z then (if isLeap year then 29 else 28)%Z
  else if (month =? 4)%Z || (month =? 6)%Z || (month =? 9)%Z || (month =? 11)%Z
       then 30%Z else 31%Z.

Definition hexDigit (n : nat) : ascii :=
  ascii_of_nat (if (n <? 10)%nat then 48 + n else 87 + n).

(** [quote] of package time: the text between double quotes, a quote or a
    backslash escaped, a byte outside printable ASCII written [\xNN]. *)
Fixpoint quoteBody (s : string) : string :=
  match s with
  | EmptyString => String (ascii_of_nat 34) EmptyString
  | String c rest =>
      let n := nat_of_ascii c in
      if (128 <=? n)%nat || (n <? 32)%nat then
        String "\" (String "x" (String (hexDigit (n / 16))
          (String (hexDigit (n mod 16)) (quoteBody rest))))
      else if (n =? 34)%nat || (n =? 92)%nat then
        String "\" (String c (quoteBody rest))
      else String c (quoteBody rest)
  end.

Definition quote (s : string) : string := String (ascii_of_nat 34) (quoteBody s).

Definition DateTimeFormat : string := "2006-01-02 15:04".

(** [time.ParseInLocation(DateTimeFormat, value, loc)], the only layout the
    package parses with.  The layout is the elements [2006], [01], [02],
    [15], [04] after the literals (none), [-], [-], (space), [:], and must
    use up the value.  A range failure is reported before a syntax failure
    of the same element; the day is checked against the month last. *)
Definition time_ParseInLocation (value : string) (loc : Location) : Time + error :=
  let bad (elem rest msg : string) : Time + error :=
    inr (ParseError DateTimeFormat value elem rest msg) in
  match getyear value with
  | None => bad "2006" value ""
  | Some (year, v1) =>
  match skip v1 "-" with
  | None => bad "-" v1 ""
  | Some v2 =>
  match getnum v2 true with
  | None => bad "01" v2 ""
  | Some (month, v3) =>
  if (month <=? 0)%Z || (12 <? month)%Z then bad "01" v3 ": month out of range" else
  match skip v3 "-" with
  | None => bad "-" v3 ""
  | Some v4 =>
  match getnum v4 true with
  | None => bad "02" v4 ""
  | Some (day, v5) =>
  match skip v5 " " with
  | None => bad " " v5 ""
  | Some v6 =>
  match getnum v6 false with
  | None => bad "15" v6 ""
  | Some (hour, v7) =>
  if (24 <=? hour)%Z then bad "15" v7 ": hour out of range" else
  match skip v7 ":" with
  | None => bad ":" v7 ""
  | Some v8 =>
  match getnum v8 true with
  | None => bad "04" v8 ""
  | Some (min, v9) =>
  if (60 <=? min)%Z then bad "04" v9 ": minute out of range" else
  match v9 with
  | String _ _ => bad "" v9 (": extra text: " +:+ quote v9)
  | EmptyString =>
  if (day <? 1)%Z || (daysIn month year <? day)%Z
  then bad "" v9 ": day out of range"
  else inl (time_Date year month day hour min 0 0 loc)
  end end end end end end end end end end.

(** ** parse.go: the helpers *)

(** [parseDateTime]: the date and the time of day of a row, read in
    [location] (UTC when nil); an empty time of day is midnight. *)
Definition parseDateTime (date timeStr : string) (location : option Location)
    : Time + error :=
  let location := match location with None => UTC | Some l => l end in
  let timeStr := if String.eqb timeStr "" then "00:00" else timeStr in
  let dateTimeStr := date +:+ " " +:+ timeStr in
  match time_ParseInLocation dateTimeStr location with
  | inr err =>
      inr (Errorf "invalid date/time format %q: %w" [Str dateTimeStr; Err err])
  | inl t => inl t
  end.

(** [time.Time{}], the zero value of a record's [RecordedTime]. *)
Definition zeroTime : Time := time_Date 1 1 1 0 0 0 0 UTC.

(** ** parse.go: the records *)

(** The float64 nutrient fields of [ServingRecord], by their field names. *)
Inductive nutrientField : Set :=
  | EnergyKcal | CaffeineMg | WaterG | B1Mg | B2Mg | B3Mg | B5Mg | B6Mg
  | B12Mg | BiotinUg | CholineMg | FolateUg | VitaminAUI | VitaminCMg
  | VitaminDUI | VitaminEMg | VitaminKMg | CalciumMg | ChromiumUg
  | CopperMg | FluorideUg | IodineUg | MagnesiumMg | ManganeseMg
  | PhosphorusMg | PotassiumMg | SeleniumUg | SodiumMg | ZincMg | CarbsG
  | FiberG | FructoseG | GalactoseG | GlucoseG | LactoseG | MaltoseG
  | StarchG | SucroseG | SugarsG | NetCarbsG | FatG | CholesterolMg
  | MonounsaturatedG | PolyunsaturatedG | SaturatedG | TransFatG | Omega3G
  | Omega6G | CystineG | HistidineG | IsoleucineG | LeucineG | LysineG
  | MethionineG | PhenylalanineG | ThreonineG | TryptophanG | TyrosineG
  | ValineG | ProteinG | IronMg.

Scheme Equality for nutrientField.

(** [ServingRecord].  Its sixty-one nutrient fields, all of type float64,
    are the components of [Nutrients]: the field [serving.EnergyKcal] is
    [Nutrients serving EnergyKcal]. *)
Module ServingRecord.
Record t : Type := mk {
  RecordedTime : Time;
  Group : string;
  FoodName : string;
  QuantityValue : float64;
  QuantityUnits : string;
  Nutrients : nutrientField -> float64;
  Category : string }.

(** [ServingRecord{}] *)
Definition zero : t := mk zeroTime "" "" 0%float "" (fun _ => 0%float) "".

Definition set_RecordedTime (x : Time) (r : t) : t :=
  mk x (Group r) (FoodName r) (QuantityValue r) (QuantityUnits r) (Nutrients r) (Category r).
Definition set_Group (x : string) (r : t) : t :=
  mk (RecordedTime r) x (FoodName r) (QuantityValue r) (QuantityUnits r) (Nutrients r) (Category r).
Definition set_FoodName (x : string) (r : t) : t :=
  mk (RecordedTime r) (Group r) x (QuantityValue r) (QuantityUnits r) (Nutrients r) (Category r).
Definition set_QuantityValue (x : float64) (r : t) : t :=
  mk (RecordedTime r) (Group r) (FoodName r) x (QuantityUnits r) (Nutrients r) (Category r).
Definition set_QuantityUnits (x : string) (r : t) : t :=
  mk (RecordedTime r) (Group r) (FoodName r) (QuantityValue r) x (Nutrients r) (Category r).
Definition set_Nutrient (field : nutrientField) (x : float64) (r : t) : t :=
  mk (RecordedTime r) (Group r) (FoodName r) (QuantityValue r) (QuantityUnits r)
     (fun k => if nutrientField_beq k field then x else Nutrients r k) (Category r).
Definition set_Category (x : string) (r : t) : t :=
  mk (RecordedTime r) (Group r) (FoodName r) (QuantityValue r) (QuantityUnits r) (Nutrients r) x.
End ServingRecord.

Module ExerciseRecord.
Record t : Set := mk {
  RecordedTime : Time;
  Exercise : string;
  Minutes : float64;
  CaloriesBurned : float64 }.

(** [ExerciseRecord{}] *)
Definition zero : t := mk zeroTime "" 0%float 0%float.

Definition set_RecordedTime (x : Time) (r : t) : t :=
  mk x (Exercise r) (Minutes r) (CaloriesBurned r).
Definition set_Exercise (x : string) (r : t) : t :=
  mk (RecordedTime r) x (Minutes r) (CaloriesBurned r).
Definition set_Minutes (x : float64) (r : t) : t :=
  mk (RecordedTime r) (Exercise r) x (CaloriesBurned r).
Definition set_CaloriesBurned (x : float64) (r : t) : t :=
  mk (RecordedTime r) (Exercise r) (Minutes r) x.
End ExerciseRecord.

Module BiometricRecord.
Record t : Set := mk {
  RecordedTime : Time;
  Metric : string;
  Unit : string;
  Amount : float64 }.

(** [BiometricRecord{}] *)
Definition zero : t := mk zeroTime "" "" 0%float.

Definition set_RecordedTime (x : Time) (r : t) : t :=
  mk x (Metric r) (Unit r) (Amount r).
Definition set_Metric (x : string) (r : t) : t :=
  mk (RecordedTime r) x (Unit r) (Amount r).
Definition set_Unit (x : string) (r : t) : t :=
  mk (RecordedTime r) (Metric r) x (Amount r).
Definition set_Amount (x : float64) (r : t) : t :=
  mk (RecordedTime r) (Metric r) (Unit r) x.
End BiometricRecord.

(** The cases of the switch of [ParseServingsExport] that call
    [parseNutrientFloat], in the order of the source: the column name, the
    field the value goes to, and the nutrient the error names. *)
Definition nutrientColumns : list (string * (nutrientField * string)) :=
  [ ("Energy (kcal)", (EnergyKcal, "energy"));
    ("Caffeine (mg)", (CaffeineMg, "caffeine"));
    ("Water (g)", (WaterG, "water"));
    ("B1 (Thiamine) (mg)", (B1Mg, "vitamin B1"));
    ("B2 (Riboflavin) (mg)", (B2Mg, "vitamin B2"));
    ("B3 (Niacin) (mg)", (B3Mg, "vitamin B3"));
    ("B5 (Pantothenic Acid) (mg)", (B5Mg, "vitamin B5"));
    ("B6 (Pyridoxine) (mg)", (B6Mg, "vitamin B6"));
    ("B12 (Cobalamin) (µg)", (B12Mg, "vitamin B12"));
    ("Biotin (µg)", (BiotinUg, "biotin"));
    ("Choline (mg)", (CholineMg, "choline"));
    ("Folate (µg)", (FolateUg, "folate"));
    ("Vitamin A (IU)", (VitaminAUI, "vitamin A"));
    ("Vitamin C (mg)", (VitaminCMg, "vitamin C"));
    ("Vitamin D (IU)", (VitaminDUI, "vitamin D"));
    ("Vitamin E (mg)", (VitaminEMg, "vitamin E"));
    ("Vitamin K (µg)", (VitaminKMg, "vitamin K"));
    ("Calcium (mg)", (CalciumMg, "calcium"));
    ("Chromium (µg)", (ChromiumUg, "chromium"));
    ("Copper (mg)", (CopperMg, "copper"));
    ("Fluoride (µg)", (FluorideUg, "fluoride"));
    ("Iodine (µg)", (IodineUg, "iodine"));
    ("Iron (mg)", (IronMg, "iron"));
    ("Magnesium (mg)", (MagnesiumMg, "magnesium"));
    ("Manganese (mg)", (ManganeseMg, "manganese"));
    ("Phosphorus (mg)", (PhosphorusMg, "phosphorus"));
    ("Potassium (mg)", (PotassiumMg, "potassium"));
    ("Selenium (µg)", (SeleniumUg, "selenium"));
    ("Sodium (mg)", (SodiumMg, "sodium"));
    ("Zinc (mg)", (ZincMg, "zinc"));
    ("Carbs (g)", (CarbsG, "carbohydrates"));
    ("Fiber (g)", (FiberG, "fiber"));
    ("Fructose (g)", (FructoseG, "fructose"));
    ("Galactose (g)", (GalactoseG, "galactose"));
    ("Glucose (g)", (GlucoseG, "glucose"));
    ("Lactose (g)", (LactoseG, "lactose"));
    ("Maltose (g)", (MaltoseG, "maltose"));
    ("Starch (g)", (StarchG, "starch"));
    ("Sucrose (g)", (SucroseG, "sucrose"));
    ("Sugars (g)", (SugarsG, "sugars"));
    ("Net Carbs (g)", (NetCarbsG, "net carbs"));
    ("Fat (g)", (FatG, "fat"));
    ("Cholesterol (mg)", (CholesterolMg, "cholesterol"));
    ("Monounsaturated (g)", (MonounsaturatedG, "monounsaturated fat"));
    ("Polyunsaturated (g)", (PolyunsaturatedG, "polyunsaturated fat"));
    ("Saturated (g)", (SaturatedG, "saturated fat"));
    ("Trans-Fats (g)", (TransFatG, "trans fat"));
    ("Omega-3 (g)", (Omega3G, "omega-3"));
    ("Omega-6 (g)", (Omega6G, "omega-6"));
    ("Cystine (g)", (CystineG, "cystine"));
    ("Histidine (g)", (HistidineG, "histidine"));
    ("Isoleucine (g)", (IsoleucineG, "isoleucine"));
    ("Leucine (g)", (LeucineG, "leucine"));
    ("Lysine (g)", (LysineG, "lysine"));
    ("Methionine (g)", (MethionineG, "methionine"));
    ("Phenylalanine (g)", (PhenylalanineG, "phenylalanine"));
    ("Protein (g)", (ProteinG, "protein"));
    ("Threonine (g)", (ThreonineG, "threonine"));
    ("Tryptophan (g)", (TryptophanG, "tryptophan"));
    ("Tyrosine (g)", (TyrosineG, "tyrosine"));
    ("Valine (g)", (ValineG, "valine")) ].

Fixpoint nutrientColumn (table : list (string * (nutrientField * string)))
    (columnName : string) : option (nutrientField * string) :=
  match table with
  | [] => None
  | (name, target) :: table' =>
      if String.eqb columnName name then Some target
      else nutrientColumn table' columnName
  end.

(** ** Package encoding/csv *)

(** What one call of [csv.Reader.Read] gives: a record, or an error other
    than [io.EOF]. *)
Inductive readResult : Type :=
  | Fields (record : list string)
  | Failed (err : error).

(** The reader made by [csv.NewReader(rawCSVReader)]: the results of its
    successive [Read] calls, [io.EOF] after the last one. *)
Abbreviation Reader := (list readResult).

(** ** parse.go: the loop the three entry points share

    The three entry points are the same loop over the reader.  They differ
    in the record they fill ([zero], [set_RecordedTime]), in the switch on
    the column name ([cell]) and in the format that wraps a failure of
    [parseDateTime] ([timeFormat]).  The variables of a row that the switch
    assigns are the triple [(date, timeStr, record)]. *)
Section ExportLoop.
Context {R : Type}.
Variable zero : R.
Variable cell : string -> string -> string * string * R -> string * string * R + error.
Variable set_RecordedTime : Time -> R -> R.
Variable timeFormat : string.

(** [for i, v := range record { headers[i] = v }] *)
Fixpoint indexHeaders (i : nat) (record : list string) (headers : gmap nat string)
    : gmap nat string :=
  match record with
  | [] => headers
  | v :: record' => indexHeaders (S i) record' (<[i := v]> headers)
  end.

(** [headers[i]]: the empty string for a key the map does not hold. *)
Definition headerAt (headers : gmap nat string) (i : nat) : string :=
  default "" (headers !! i).

(** [for i, v := range record { columnName := headers[i]; switch ... }],
    from index [i] on; a [return nil, err] of the switch ends it. *)
Fixpoint rangeCells (headers : gmap nat string) (i : nat) (record : list string)
    (vars : string * string * R) : string * string * R + error :=
  match record with
  | [] => inl vars
  | v :: record' =>
      match cell (headerAt headers i) v vars with
      | inr err => inr err
      | inl vars' => rangeCells headers (S i) record' vars'
      end
  end.

(** The [for] loop over [r.Read()], with the variables it updates:
    [lineNum], [headers], [location] (set to UTC at the first data row when
    nil) and the slice of records. *)
Fixpoint readLoop (r : Reader) (lineNum : nat) (headers : gmap nat string)
    (location : option Location) (records : list R) : list R * option error :=
  match r with
  | [] => (records, None)
  | Failed err :: _ => ([], Some err)
  | Fields record :: r' =>
      if (lineNum =? 0)%nat then
        readLoop r' (S lineNum) (indexHeaders 0 record headers) location records
      else
        match rangeCells headers 0 record ("", "", zero) with
        | inr err => ([], Some err)
        | inl (date, timeStr, rec) =>
            let timeStr := if String.eqb timeStr "" then "00:00 AM" else timeStr in
            let location :=
              match location with None => Some UTC | Some _ => location end in
            match parseDateTime date timeStr location with
            | inr err => ([], Some (Errorf timeFormat [Err err]))
            | inl t =>
                readLoop r' (S lineNum) headers location
                  (records ++ [set_RecordedTime t rec])
            end
        end
  end.

(** The body of the loop for one data row: the cells, the default of an
    empty time, the default location, the timestamp. *)
Definition decodeRow (headers : gmap nat string) (location : option Location)
    (record : list string) : R + error :=
  match rangeCells headers 0 record ("", "", zero) with
  | inr err => inr err
  | inl (date, timeStr, rec) =>
      let timeStr := if String.eqb timeStr "" then "00:00 AM" else timeStr in
      let location :=
        match location with None => Some UTC | Some _ => location end in
      match parseDateTime date timeStr location with
      | inr err => inr (Errorf timeFormat [Err err])
      | inl t => inl (set_RecordedTime t rec)
      end
  end.

(** The loop as a transition system: one iteration from the variables of
    the loop either goes on with new variables or returns. *)
Inductive iteration :
    Reader * nat * gmap nat string * option Location * list R ->
    (Reader * nat * gmap nat string * option Location * list R)
    + (list R * option error) -> Prop :=
  | iteration_eof lineNum headers location records :
      iteration ([], lineNum, headers, location, records)
                (inr (records, None))
  | iteration_failed err r lineNum headers location records :
      iteration (Failed err :: r, lineNum, headers, location, records)
                (inr ([], Some err))
  | iteration_header record r headers location records :
      iteration (Fields record :: r, 0%nat, headers, location, records)
                (inl (r, 1%nat, indexHeaders 0 record headers, location, records))
  | iteration_cell_error record r lineNum headers location records err :
      lineNum <> 0%nat ->
      rangeCells headers 0 record ("", "", zero) = inr err ->
      iteration (Fields record :: r, lineNum, headers, location, records)
                (inr ([], Some err))
  | iteration_time_error record r lineNum headers location records
        date timeStr rec err :
      lineNum <> 0%nat ->
      rangeCells headers 0 record ("", "", zero) = inl (date, timeStr, rec) ->
      parseDateTime date (if String.eqb timeStr "" then "00:00 AM" else timeStr)
        (match location with None => Some UTC | Some _ => location end)
      = inr err ->
      iteration (Fields record :: r, lineNum, headers, location, records)
                (inr ([], Some (Errorf timeFormat [Err err])))
  | iteration_row record r lineNum headers location records
        date timeStr rec t :
      lineNum <> 0%nat ->
      rangeCells headers 0 record ("", "", zero) = inl (date, timeStr, rec) ->
      parseDateTime date (if String.eqb timeStr "" then "00:00 AM" else timeStr)
        (match location with None => Some UTC | Some _ => location end)
      = inl t ->
      iteration (Fields record :: r, lineNum, headers, location, records)
                (inl (r, S lineNum, headers,
                      match location with None => Some UTC | Some _ => location end,
                      (records ++ [set_RecordedTime t rec])%list)).

(** A call runs iterations until one returns. *)
Inductive runs :
    Reader * nat * gmap nat string * option Location * list R ->
    list R * option error -> Prop :=
  | runs_return vars result :
      iteration vars (inr result) -> runs vars result
  | runs_next vars vars' result :
      iteration vars (inl vars') -> runs vars' result -> runs vars result.

(** An entry point: [lineNum := 0], [headers := make(map[int]string)], an
    empty slice, then the loop. *)
Definition parseExport (rawCSVReader : Reader) (location : option Location)
    : list R * option error :=
  readLoop rawCSVReader 0 ∅ location [].

End ExportLoop.

(** ** parse.go: the switches and the entry points *)
Section Parse.
Variable atof : string -> Z -> float64 + strconvErr.

(** [parseFloat]: [strconv.ParseFloat], but the empty string is 0. *)
Definition parseFloat (s : string) (bitSize : Z) : float64 + error :=
  if String.eqb s "" then inl 0%float
  else strconv_ParseFloat atof s bitSize.

Definition parseNutrientFloat (value nutrient : string) : float64 + error :=
  match parseFloat value 64 with
  | inr err =>
      inr (Errorf "parsing %s value %q: %w" [Str nutrient; Str value; Err err])
  | inl f => inl f
  end.

(** The switch of [ParseServingsExport]. *)
Definition servingCell (columnName v : string)
    (vars : string * string * ServingRecord.t)
    : string * string * ServingRecord.t + error :=
  let '(date, timeStr, serving) := vars in
  if String.eqb columnName "Day" then inl (v, timeStr, serving)
  else if String.eqb columnName "Time" then inl (date, v, serving)
  else if String.eqb columnName "Group" then
    inl (date, timeStr, ServingRecord.set_Group v serving)
  else if String.eqb columnName "Food Name" then
    inl (date, timeStr, ServingRecord.set_FoodName v serving)
  else if String.eqb columnName "Amount" then
    match strings_SplitN2 v " " with
    | [part0; part1] =>
        match parseFloat part0 64 with
        | inr err =>
            inr (Errorf "parsing quantity value %q: %w" [Str part0; Err err])
        | inl f =>
            inl (date, timeStr,
                 ServingRecord.set_QuantityUnits part1
                   (ServingRecord.set_QuantityValue f serving))
        end
    | _ => inr (Errorf "invalid amount format %q, expected 'value unit'" [Str v])
    end
  else
    match nutrientColumn nutrientColumns columnName with
    | Some (field, nutrient) =>
        match parseNutrientFloat v nutrient with
        | inr err => inr err
        | inl f => inl (date, timeStr, ServingRecord.set_Nutrient field f serving)
        end
    | None =>
        if String.eqb columnName "Category" then
          inl (date, timeStr, ServingRecord.set_Category v serving)
        else inl vars
    end.

Definition ParseServingsExport (rawCSVReader : Reader) (location : option Location)
    : list ServingRecord.t * option error :=
  parseExport ServingRecord.zero servingCell ServingRecord.set_RecordedTime
    "parsing serving time: %w" rawCSVReader location.

(** The switch of [ParseExerciseExport]. *)
Definition exerciseCell (columnName v : string)
    (vars : string * string * ExerciseRecord.t)
    : string * string * ExerciseRecord.t + error :=
  let '(date, timeStr, exercise) := vars in
  if String.eqb columnName "Day" then inl (v, timeStr, exercise)
  else if String.eqb columnName "Time" then inl (date, v, exercise)
  else if String.eqb columnName "Exercise" then
    inl (date, timeStr, ExerciseRecord.set_Exercise v exercise)
  else if String.eqb columnName "Minutes" then
    match parseFloat v 64 with
    | inr err => inr (Errorf "parsing energy: %s" [Err err])
    | inl f => inl (date, timeStr, ExerciseRecord.set_Minutes f exercise)
    end
  else if String.eqb columnName "Calories Burned" then
    match parseFloat v 64 with
    | inr err => inr (Errorf "parsing caffeine: %s" [Err err])
    | inl f => inl (date, timeStr, ExerciseRecord.set_CaloriesBurned f exercise)
    end
  else inl vars.

Definition ParseExerciseExport (rawCSVReader : Reader) (location : option Location)
    : list ExerciseRecord.t * option error :=
  parseExport ExerciseRecord.zero exerciseCell ExerciseRecord.set_RecordedTime
    "parsing exercise time: %w" rawCSVReader location.

(** The switch of [ParseBiometricRecordsExport]. *)
Definition biometricCell (columnName v : string)
    (vars : string * string * BiometricRecord.t)
    : string * string * BiometricRecord.t + error :=
  let '(date, timeStr, bioRecord) := vars in
  if String.eqb columnName "Day" then inl (v, timeStr, bioRecord)
  else if String.eqb columnName "Time" then inl (date, v, bioRecord)
  else if String.eqb columnName "Metric" then
    inl (date, timeStr, BiometricRecord.set_Metric v bioRecord)
  else if String.eqb columnName "Unit" then
    inl (date, timeStr, BiometricRecord.set_Unit v bioRecord)
  else if String.eqb columnName "Amount" then
    if negb (strings_Contains v "/") then
      match parseFloat v 64 with
      | inr err => inr (Errorf "parsing energy: %s" [Err err])
      | inl f => inl (date, timeStr, BiometricRecord.set_Amount f bioRecord)
      end
    else inl vars
  else inl vars.

Definition ParseBiometricRecordsExport (rawCSVReader : Reader)
    (location : option Location) : list BiometricRecord.t * option error :=
  parseExport BiometricRecord.zero biometricCell BiometricRecord.set_RecordedTime
    "parsing biometric time: %w" rawCSVReader location.

End Parse.

(** ** A conversion to run the parsers with

    The results below hold for every conversion [atof].  [decimalAtof] is
    one to evaluate them with: it converts the plain decimal texts [ddd]
    and [ddd.ddd] of at most fifteen digits, to the value strconv gives
    them (the quotient of two integers that binary64 holds exactly, rounded
    once), and reports every other text as a syntax error. *)
Fixpoint readDigits (s : string) (acc : Z) (n : nat) : Z * nat * string :=
  match s with
  | String c rest =>
      if isDigit c then readDigits rest (acc * 10 + digit c)%Z (S n)
      else (acc, n, s)
  | EmptyString => (acc, n, s)
  end.

Definition decimalAtof (s : string) (bitSize : Z) : float64 + strconvErr :=
  let '(whole, n, rest) := readDigits s 0 0 in
  let '(mant, m, rest') :=
    match rest with
    | String "." frac => readDigits frac whole 0
    | _ => (whole, 0%nat, rest)
    end in
  match rest' with
  | EmptyString =>
      if (0 <? n + m)%nat && (n + m <=? 15)%nat
      then inl (PrimFloat.div (of_uint63 (Uint63.of_Z mant))
                              (of_uint63 (Uint63.of_Z (10 ^ Z.of_nat m))))
      else inr ErrSyntax
  | String _ _ => inr ErrSyntax
  end.

(** ** Notions the statements use *)

(** The texts an error value is made of mention [needle]: its format
    string, a string operand, or an error operand does. *)
Definition strconvErrText (e : strconvErr) : string :=
  match e with
  | ErrSyntax => "invalid syntax"
  | ErrRange => "value out of range"
  end.

Fixpoint mentions (needle : string) (e : error) : bool :=
  match e with
  | ReadError msg => strings_Contains msg needle
  | NumError func num err =>
      strings_Contains func needle || strings_Contains num needle
      || strings_Contains (strconvErrText err) needle
  | ParseError layout value layoutElem valueElem message =>
      strings_Contains layout needle || strings_Contains value needle
      || strings_Contains layoutElem needle || strings_Contains valueElem needle
      || strings_Contains message needle
  | Errorf format a =>
      strings_Contains format needle
      || existsb (fun o => match o with
                           | Str s => strings_Contains s needle
                           | Err e' => mentions needle e'
                           end) a
  end.

(** The last byte of a text is a decimal digit. *)
Fixpoint endsInDigit (s : string) : bool :=
  match s with
  | EmptyString => false
  | String c EmptyString => isDigit c
  | String _ rest => endsInDigit rest
  end.

(** The column names each switch has a case for. *)
Definition servingColumns : list string :=
  (["Day"; "Time"; "Group"; "Food Name"; "Amount"]
   ++ map fst nutrientColumns ++ ["Category"])%list.

Definition exerciseColumns : list string :=
  ["Day"; "Time"; "Exercise"; "Minutes"; "Calories Burned"].

Definition biometricColumns : list string :=
  ["Day"; "Time"; "Metric"; "Unit"; "Amount"].

(** One more element at position [k] of a list. *)
Definition insertAt {A : Type} (k : nat) (x : A) (l : list A) : list A :=
  (take k l ++ x :: drop k l)%list.

(** The reader of the same input with one more cell at position [k] of
    every record, [cellAt n] in the record of the [n]-th read. *)
Definition insertCells (k : nat) (cellAt : nat -> string) (r : Reader) : Reader :=
  imap (fun n res =>
          match res with
          | Fields record => Fields (insertAt k (cellAt n) record)
          | Failed err => Failed err
          end) r.

(** The reader of the same input with one more column at position [k]:
    [columnName] in the header, [cellAt n] in the [n]-th data row. *)
Definition insertColumn (k : nat) (columnName : string) (cellAt : nat -> string)
    (r : Reader) : Reader :=
  insertCells k (fun n => match n with O => columnName | S n' => cellAt n' end) r.

(** Every record of the reader has a position [k]. *)
Definition columnFits (k : nat) (r : Reader) : Prop :=
  Forall (fun res => match res with
                     | Fields record => k <= length record
                     | Failed _ => True
                     end) r.

(** The reading the specification gives of an amount cell: the text before
    the first whitespace, and the text after the run of whitespace that
    starts there. *)
Definition isSpace (c : ascii) : bool :=
  let n := nat_of_ascii c in
  (n =? 32)%nat || ((9 <=? n)%nat && (n <=? 13)%nat).

Fixpoint dropSpaces (s : string) : string :=
  match s with
  | String c rest => if isSpace c then dropSpaces rest else s
  | EmptyString => s
  end.

Fixpoint splitWhitespaceRun (s : string) : option (string * string) :=
  match s with
  | EmptyString => None
  | String c rest =>
      if isSpace c then Some (EmptyString, dropSpaces rest)
      else match splitWhitespaceRun rest with
           | Some (value, unit) => Some (String c value, unit)
           | None => None
           end
  end.

(** The three record families, to state a property of every entry point
    at once. *)
Inductive family : Set := Servings | Exercises | Biometrics.

Definition recordOf (f : family) : Type :=
  match f with
  | Servings => ServingRecord.t
  | Exercises => ExerciseRecord.t
  | Biometrics => BiometricRecord.t
  end.

(** The entry point of a family. *)
Definition Parse (atof : string -> Z -> float64 + strconvErr) (f : family)
    : Reader -> option Location -> list (recordOf f) * option error :=
  match f with
  | Servings => ParseServingsExport atof
  | Exercises => ParseExerciseExport atof
  | Biometrics => ParseBiometricRecordsExport atof
  end.

(** The body of its loop for a data row. *)
Definition decodeRowOf (atof : string -> Z -> float64 + strconvErr) (f : family)
    : gmap nat string -> option Location -> list string -> recordOf f + error :=
  match f with
  | Servings =>
      decodeRow ServingRecord.zero (servingCell atof)
        ServingRecord.set_RecordedTime "parsing serving time: %w"
  | Exercises =>
      decodeRow ExerciseRecord.zero (exerciseCell atof)
        ExerciseRecord.set_RecordedTime "parsing exercise time: %w"
  | Biometrics =>
      decodeRow BiometricRecord.zero (biometricCell atof)
        BiometricRecord.set_RecordedTime "parsing biometric time: %w"
  end.

(** The runs of its loop, from the variables a call starts with. *)
Definition runsOf (atof : string -> Z -> float64 + strconvErr) (f : family)
    (r : Reader) (location : option Location)
    : list (recordOf f) * option error -> Prop :=
  match f with
  | Servings =>
      runs ServingRecord.zero (servingCell atof)
        ServingRecord.set_RecordedTime "parsing serving time: %w"
        (r, 0, ∅, location, [])
  | Exercises =>
      runs ExerciseRecord.zero (exerciseCell atof)
        ExerciseRecord.set_RecordedTime "parsing exercise time: %w"
        (r, 0, ∅, location, [])
  | Biometrics =>
      runs BiometricRecord.zero (biometricCell atof)
        BiometricRecord.set_RecordedTime "parsing biometric time: %w"
        (r, 0, ∅, location, [])
  end.

(** The column names its switch has a case for. *)
Definition columnsOf (f : family) : list string :=
  match f with
  | Servings => servingColumns
  | Exercises => exerciseColumns
  | Biometrics => biometricColumns
  end.

(** ** Notions for the properties of the rows and of the errors *)

(** The cell of a record under the last column named [columnName], among
    the cells the record has from position [i] on. *)
Fixpoint lastCell (headers : gmap nat string) (columnName : string) (i : nat)
    (record : list string) : option string :=
  match record with
  | [] => None
  | v :: record' =>
      match lastCell headers columnName (S i) record' with
      | Some w => Some w
      | None =>
          if String.eqb (headerAt headers i) columnName then Some v else None
      end
  end.

(** The time of a record. *)
Definition recordedTimeOf (f : family) : recordOf f -> Time :=
  match f with
  | Servings => ServingRecord.RecordedTime
  | Exercises => ExerciseRecord.RecordedTime
  | Biometrics => BiometricRecord.RecordedTime
  end.

(** The text fields of a record with the columns they are read from. *)
Definition textFieldsOf (f : family) : list (string * (recordOf f -> string)) :=
  match f with
  | Servings =>
      [("Group", ServingRecord.Group); ("Food Name", ServingRecord.FoodName);
       ("Category", ServingRecord.Category)]
  | Exercises => [("Exercise", ExerciseRecord.Exercise)]
  | Biometrics => [("Metric", BiometricRecord.Metric); ("Unit", BiometricRecord.Unit)]
  end.

(** The parts of the loop of a family: the empty record, the switch and
    the format of the error of a timestamp. *)
Definition zeroOf (f : family) : recordOf f :=
  match f with
  | Servings => ServingRecord.zero
  | Exercises => ExerciseRecord.zero
  | Biometrics => BiometricRecord.zero
  end.

Definition cellOf (atof : string -> Z -> float64 + strconvErr) (f : family)
    : string -> string -> string * string * recordOf f
      -> string * string * recordOf f + error :=
  match f with
  | Servings => servingCell atof
  | Exercises => exerciseCell atof
  | Biometrics => biometricCell atof
  end.

Definition timeFormatOf (f : family) : string :=
  match f with
  | Servings => "parsing serving time: %w"
  | Exercises => "parsing exercise time: %w"
  | Biometrics => "parsing biometric time: %w"
  end.

(** The error the switch of a family returns for the cell [v] of the
    column [columnName]: the case of the column, the format and the text
    the error carries. *)
Inductive cellError (atof : string -> Z -> float64 + strconvErr)
    : family -> string -> string -> error -> Prop :=
  | amount_format_error (v : string) :
      strings_Contains v " " = false ->
      cellError atof Servings "Amount" v
        (Errorf "invalid amount format %q, expected 'value unit'" [Str v])
  | quantity_error (v part0 part1 : string) (e : strconvErr) :
      cutAt " " v = Some (part0, part1) ->
      part0 <> "" -> atof part0 64%Z = inr e ->
      cellError atof Servings "Amount" v
        (Errorf "parsing quantity value %q: %w"
           [Str part0; Err (NumError "ParseFloat" part0 e)])
  | nutrient_error (columnName v nutrient : string) (field : nutrientField)
        (e : strconvErr) :
      nutrientColumn nutrientColumns columnName = Some (field, nutrient) ->
      v <> "" -> atof v 64%Z = inr e ->
      cellError atof Servings columnName v
        (Errorf "parsing %s value %q: %w"
           [Str nutrient; Str v; Err (NumError "ParseFloat" v e)])
  | minutes_error (v : string) (e : strconvErr) :
      v <> "" -> atof v 64%Z = inr e ->
      cellError atof Exercises "Minutes" v
        (Errorf "parsing energy: %s" [Err (NumError "ParseFloat" v e)])
  | calories_error (v : string) (e : strconvErr) :
      v <> "" -> atof v 64%Z = inr e ->
      cellError atof Exercises "Calories Burned" v
        (Errorf "parsing caffeine: %s" [Err (NumError "ParseFloat" v e)])
  | biometric_amount_error (v : string) (e : strconvErr) :
      v <> "" -> strings_Contains v "/" = false -> atof v 64%Z = inr e ->
      cellError atof Biometrics "Amount" v
        (Errorf "parsing energy: %s" [Err (NumError "ParseFloat" v e)]).

(** The error of the timestamp of a row whose day and time of day are
    the texts [day] and [time]: it carries the two put together as the
    entry point and [parseDateTime] do, with [00:00 AM] for an empty time
    of day, and the error of [time.ParseInLocation] for them. *)
Inductive timeError : family -> string -> string -> error -> Prop :=
  | time_error (f : family) (day time layoutElem valueElem message : string) :
      timeError f day time
        (Errorf (timeFormatOf f)
           [Err (Errorf "invalid date/time format %q: %w"
                   [Str (day +:+ " "
                         +:+ (if String.eqb time "" then "00:00 AM" else time));
                    Err (ParseError DateTimeFormat
                           (day +:+ " "
                            +:+ (if String.eqb time "" then "00:00 AM" else time))
                           layoutElem valueElem message)])]).

(** The last cell under a column named [columnName] that [keep] holds of. *)
Fixpoint lastCellWhere (keep : string -> bool) (headers : gmap nat string)
    (columnName : string) (i : nat) (record : list string) : option string :=
  match record with
  | [] => None
  | v :: record' =>
      match lastCellWhere keep headers columnName (S i) record' with
      | Some w => Some w
      | None =>
          if String.eqb (headerAt headers i) columnName && keep v then Some v
          else None
      end
  end.

(** ** Inputs to evaluate the parsers on *)

Definition exerciseExport : Reader :=
  [Fields ["Day"; "Time"; "Exercise"; "Minutes"; "Calories Burned"];
   Fields ["2023-05-01"; "07:30"; "Running"; "30"; "250.5"];
   Fields ["2023-05-02"; "18:00"; "Cycling"; "45"; ""]].

Definition exerciseRecords : list ExerciseRecord.t :=
  [ExerciseRecord.mk (time_Date 2023 5 1 7 30 0 0 UTC) "Running" 30%float 250.5%float;
   ExerciseRecord.mk (time_Date 2023 5 2 18 0 0 0 UTC) "Cycling" 45%float 0%float].

(** The same export with a third row whose minutes do not convert. *)
Definition exerciseExportBadRow : Reader :=
  exerciseExport ++ [Fields ["2023-05-03"; "09:00"; "Rowing"; "abc"; "10"]].

Definition servingsExport : Reader :=
  [Fields ["Day"; "Time"; "Group"; "Food Name"; "Amount"; "Energy (kcal)";
           "Protein (g)"; "Category"];
   Fields ["2023-05-01"; "08:15"; "Breakfast"; "Oatmeal"; "123.4 g"; "150";
           "5.5"; "Cereals"];
   Fields ["2023-05-01"; "12:40"; "Lunch"; "Lentil soup"; "2 cup"; "";
           "18"; "Soups"]].

Definition biometricHeader : list string :=
  ["Day"; "Time"; "Metric"; "Unit"; "Amount"].

Definition bloodPressureRow : list string :=
  ["2023-05-01"; "08:00"; "Blood Pressure"; "mmHg"; "120/80"].

(** A servings row with two columns of the same name. *)
Definition repeatedNameHeader : list string :=
  ["Day"; "Time"; "Food Name"; "Amount"; "Food Name"; "Iron (mg)"].

Definition repeatedNameRow : list string :=
  ["2023-05-01"; "08:15"; "Oats"; "40 g"; "Rolled oats"; "1.5"].

Definition exerciseHeader : list string :=
  ["Day"; "Time"; "Exercise"; "Minutes"; "Calories Burned"].

Definition exerciseRow1 : list string :=
  ["2023-05-01"; "07:30"; "Running"; "30"; "250.5"].

Definition exerciseRow2 : list string :=
  ["2023-05-02"; "18:00"; "Cycling"; "45"; ""].

Definition exerciseRowBad : list string :=
  ["2023-05-03"; "09:00"; "Rowing"; "abc"; "10"].

(** ** The layout ends in the minute *)

Lemma endsInDigit_cons (c : ascii) (rest : string) :
  rest <> "" -> endsInDigit (String c rest) = endsInDigit rest.
Proof. destruct rest; [done | reflexivity]. Qed.

Lemma endsInDigit_append (s1 s2 : string) :
  s2 <> "" -> endsInDigit (s1 +:+ s2) = endsInDigit s2.
Proof.
  intros Hs2. induction s1 as [|c s1 IH]; [reflexivity|].
  change (String c s1 +:+ s2) with (String c (s1 +:+ s2)).
  rewrite endsInDigit_cons; [exact IH|]. destruct s1; [exact Hs2 | discriminate].
Qed.

Lemma cutspace_cons (c : ascii) (rest : string) :
  cutspace (String c rest)
  = if Ascii.eqb c " " then cutspace rest else String c rest.
Proof.
  destruct (Ascii.eqb_spec c " ") as [->|Hc]; [reflexivity|].
  destruct c as [[] [] [] [] [] [] [] []]; try reflexivity. done.
Qed.

Lemma cutspace_ends (v : string) :
  cutspace v <> "" -> endsInDigit v = endsInDigit (cutspace v).
Proof.
  induction v as [|c rest IH]; [done|].
  rewrite cutspace_cons. destruct (Ascii.eqb c " "); [|reflexivity].
  intros Hrest. rewrite <- (IH Hrest). apply endsInDigit_cons.
  intros ->. done.
Qed.

Lemma skip_ends (v v' : string) (c : ascii) :
  skip v c = Some v' -> v' <> "" -> endsInDigit v = endsInDigit v'.
Proof.
  unfold skip. destruct (Ascii.eqb c " ").
  - destruct v as [|c0 rest]; [intros [= <-]; done|].
    destruct (Ascii.eqb c0 " "); [|discriminate].
    intros [= <-] Hne. apply cutspace_ends, Hne.
  - destruct v as [|c0 rest]; [discriminate|].
    destruct (Ascii.eqb c0 c); [|discriminate].
    intros [= <-] Hne. apply endsInDigit_cons, Hne.
Qed.

Lemma getnum_ends (v v' : string) (fixed : bool) (n : Z) :
  getnum v fixed = Some (n, v') -> v' <> "" -> endsInDigit v = endsInDigit v'.
Proof.
  unfold getnum. destruct v as [|c0 [|c1 rest]]; [discriminate| |].
  - destruct (isDigit c0), fixed; try discriminate. intros [= _ <-]. done.
  - destruct (isDigit c0); [|discriminate].
    destruct (isDigit c1).
    + intros [= _ <-] Hne. rewrite endsInDigit_cons by done.
      apply endsInDigit_cons, Hne.
    + destruct fixed; [discriminate|]. intros [= _ <-] _.
      apply endsInDigit_cons. done.
Qed.

Lemma getnum_to_the_end (v : string) (n : Z) :
  getnum v true = Some (n, "") -> endsInDigit v = true.
Proof.
  unfold getnum. destruct v as [|c0 [|c1 rest]]; [discriminate| |].
  - destruct (isDigit c0); discriminate.
  - destruct (isDigit c0); [|discriminate].
    destruct (isDigit c1) eqn:Hc1; [|discriminate].
    intros [= _ ->]. exact Hc1.
Qed.

Lemma getyear_ends (v v' : string) (n : Z) :
  getyear v = Some (n, v') -> v' <> "" -> endsInDigit v = endsInDigit v'.
Proof.
  unfold getyear. destruct v as [|a [|b [|c [|d rest]]]]; try discriminate.
  destruct (isDigit a && isDigit b && isDigit c && isDigit d); [|discriminate].
  intros [= _ <-] Hne. rewrite !endsInDigit_cons by done. reflexivity.
Qed.

Lemma getnum_Some_nonempty (v v' : string) (fixed : bool) (n : Z) :
  getnum v fixed = Some (n, v') -> v <> "".
Proof. destruct v; [discriminate | done]. Qed.

Lemma skip_literal_nonempty (v v' : string) (c : ascii) :
  Ascii.eqb c " " = false -> skip v c = Some v' -> v <> "".
Proof.
  unfold skip. intros ->. destruct v; [discriminate | done].
Qed.

(** A value the layout accepts ends in the second digit of its minute. *)
Lemma time_ParseInLocation_ends_in_digit (value : string) (loc : Location)
    (t : Time) :
  time_ParseInLocation value loc = inl t -> endsInDigit value = true.
Proof.
  unfold time_ParseInLocation.
  destruct (getyear value) as [[year v1]|] eqn:Hyear; [|discriminate].
  destruct (skip v1 "-") as [v2|] eqn:Hs1; [|discriminate].
  destruct (getnum v2 true) as [[month v3]|] eqn:Hmonth; [|discriminate].
  destruct ((month <=? 0)%Z || (12 <? month)%Z); [discriminate|].
  destruct (skip v3 "-") as [v4|] eqn:Hs2; [|discriminate].
  destruct (getnum v4 true) as [[day v5]|] eqn:Hday; [|discriminate].
  destruct (skip v5 " ") as [v6|] eqn:Hs3; [|discriminate].
  destruct (getnum v6 false) as [[hour v7]|] eqn:Hhour; [|discriminate].
  destruct (24 <=? hour)%Z; [discriminate|].
  destruct (skip v7 ":") as [v8|] eqn:Hs4; [|discriminate].
  destruct (getnum v8 true) as [[min v9]|] eqn:Hmin; [|discriminate].
  destruct (60 <=? min)%Z; [discriminate|].
  destruct v9; [|discriminate]. intros _.
  pose proof (getnum_Some_nonempty _ _ _ _ Hmin) as Hv8.
  pose proof (skip_literal_nonempty v7 v8 ":" eq_refl Hs4) as Hv7.
  pose proof (getnum_Some_nonempty _ _ _ _ Hhour) as Hv6.
  pose proof (getnum_Some_nonempty _ _ _ _ Hday) as Hv4.
  pose proof (skip_literal_nonempty v3 v4 "-" eq_refl Hs2) as Hv3.
  pose proof (getnum_Some_nonempty _ _ _ _ Hmonth) as Hv2.
  pose proof (skip_literal_nonempty v1 v2 "-" eq_refl Hs1) as Hv1.
  assert (v5 <> "") as Hv5.
  { intros ->. simpl in Hs3. injection Hs3 as <-. done. }
  rewrite (getyear_ends _ _ _ Hyear Hv1), (skip_ends _ _ _ Hs1 Hv2),
    (getnum_ends _ _ _ _ Hmonth Hv3), (skip_ends _ _ _ Hs2 Hv4),
    (getnum_ends _ _ _ _ Hday Hv5), (skip_ends _ _ _ Hs3 Hv6),
    (getnum_ends _ _ _ _ Hhour Hv7), (skip_ends _ _ _ Hs4 Hv8).
  apply (getnum_to_the_end _ _ Hmin).
Qed.

(** The time of day the entry points put in place of an empty one is
    rejected with every date. *)
Lemma parseDateTime_entry_default_fails (date : string) (location : option Location) :
  exists err,
    parseDateTime date "00:00 AM" location
    = inr (Errorf "invalid date/time format %q: %w"
             [Str (date +:+ " 00:00 AM"); Err err]).
Proof.
  unfold parseDateTime.
  change (String.eqb "00:00 AM" "") with false. cbv iota.
  change (" " +:+ "00:00 AM") with " 00:00 AM".
  destruct (time_ParseInLocation _ _) as [t|err] eqn:Hparse; [|by exists err].
  apply time_ParseInLocation_ends_in_digit in Hparse.
  rewrite endsInDigit_append in Hparse by discriminate. discriminate.
Qed.

(** ** Facts about the shared loop *)

Lemma indexHeaders_lookup (record : list string) :
  forall (i : nat) (headers : gmap nat string) (j : nat),
    indexHeaders i record headers !! j
    = if decide (i <= j < i + length record) then record !! (j - i)
      else headers !! j.
Proof.
  induction record as [|v record IH]; intros i headers j; simpl.
  - case_decide; [lia | reflexivity].
  - rewrite IH. repeat case_decide; try lia.
    + replace (j - i) with (S (j - S i)) by lia. reflexivity.
    + assert (j = i) as -> by lia.
      rewrite lookup_insert_eq, Nat.sub_diag. reflexivity.
    + rewrite lookup_insert_ne by lia. reflexivity.
Qed.

Lemma headerAt_indexHeaders (record : list string) (j : nat) :
  headerAt (indexHeaders 0 record ∅) j = default "" (record !! j).
Proof.
  unfold headerAt. rewrite indexHeaders_lookup.
  case_decide as Hj.
  - rewrite Nat.sub_0_r. reflexivity.
  - rewrite lookup_empty, lookup_ge_None_2 by lia. reflexivity.
Qed.

Lemma insertAt_lookup {A : Type} (k : nat) (x : A) (l : list A) (j : nat) :
  k <= length l ->
  insertAt k x l !! j
  = if decide (j < k) then l !! j
    else if decide (j = k) then Some x else l !! (j - 1).
Proof.
  intros Hk. unfold insertAt.
  assert (length (take k l) = k) as Hlen by (rewrite length_take; lia).
  repeat case_decide.
  - rewrite lookup_app_l by lia. apply lookup_take_lt. done.
  - subst j. rewrite lookup_app_r by lia.
    rewrite Hlen, Nat.sub_diag. reflexivity.
  - rewrite lookup_app_r by lia. rewrite Hlen.
    replace (j - k) with (S (j - S k)) by lia. simpl.
    rewrite lookup_drop. f_equal. lia.
Qed.

(** [parseDateTime] reads a nil location as UTC. *)
Lemma parseDateTime_location (date timeStr : string) (location : option Location) :
  parseDateTime date timeStr
    (match location with None => Some UTC | Some _ => location end)
  = parseDateTime date timeStr location.
Proof. destruct location; reflexivity. Qed.

Section ExportFacts.
Context {R : Type}.
Variable zero : R.
Variable cell : string -> string -> string * string * R -> string * string * R + error.
Variable set_RecordedTime : Time -> R -> R.
Variable timeFormat : string.

(** The cells of a record are decoded by the names at their positions
    only. *)
Lemma rangeCells_ext (record : list string) :
  forall (h1 h2 : gmap nat string) (i1 i2 : nat) (vars : string * string * R),
    (forall j, j < length record -> headerAt h1 (i1 + j) = headerAt h2 (i2 + j)) ->
    rangeCells cell h1 i1 record vars = rangeCells cell h2 i2 record vars.
Proof.
  induction record as [|v record IH]; intros h1 h2 i1 i2 vars Hnames; simpl.
  - reflexivity.
  - pose proof (Hnames 0 ltac:(simpl; lia)) as H0.
    rewrite !Nat.add_0_r in H0. rewrite H0.
    destruct (cell (headerAt h2 i2) v vars) as [vars'|err]; [|reflexivity].
    apply IH. intros j Hj.
    specialize (Hnames (S j) ltac:(simpl; lia)).
    rewrite !Nat.add_succ_r in Hnames. exact Hnames.
Qed.

Lemma rangeCells_app (l1 l2 : list string) :
  forall (headers : gmap nat string) (i : nat) (vars : string * string * R),
    rangeCells cell headers i (l1 ++ l2) vars
    = match rangeCells cell headers i l1 vars with
      | inl vars' => rangeCells cell headers (i + length l1) l2 vars'
      | inr err => inr err
      end.
Proof.
  induction l1 as [|v l1 IH]; intros headers i vars; simpl.
  - rewrite Nat.add_0_r. reflexivity.
  - destruct (cell (headerAt headers i) v vars) as [vars'|err]; [|reflexivity].
    rewrite IH. replace (S i + length l1) with (i + S (length l1)) by lia.
    reflexivity.
Qed.

(** A column the switch has no case for, put at position [k] of the header
    and of a record, leaves the decoding of the record as it was. *)
Lemma rangeCells_insertAt (k : nat) (columnName x : string)
    (header record : list string) (vars : string * string * R) :
  (forall v vars', cell columnName v vars' = inl vars') ->
  k <= length header -> k <= length record ->
  rangeCells cell (indexHeaders 0 (insertAt k columnName header) ∅) 0
    (insertAt k x record) vars
  = rangeCells cell (indexHeaders 0 header ∅) 0 record vars.
Proof.
  intros Hskip Hh Hr.
  assert (length (take k record) = k) as Hlen by (rewrite length_take; lia).
  rewrite <- (take_drop k record) at 2.
  unfold insertAt at 2. rewrite !rangeCells_app, Hlen. simpl.
  rewrite (rangeCells_ext (take k record) _ (indexHeaders 0 header ∅) 0 0).
  2:{ intros j Hj. simpl. rewrite !headerAt_indexHeaders.
      rewrite insertAt_lookup by done. case_decide; [done | lia]. }
  destruct (rangeCells cell (indexHeaders 0 header ∅) 0 (take k record) vars)
    as [vars'|err]; [|reflexivity].
  replace (headerAt (indexHeaders 0 (insertAt k columnName header) ∅) k)
    with columnName.
  2:{ rewrite headerAt_indexHeaders, insertAt_lookup by done.
      repeat case_decide; try lia. reflexivity. }
  rewrite Hskip. apply rangeCells_ext.
  intros j _. rewrite !headerAt_indexHeaders.
  rewrite insertAt_lookup by done.
  repeat case_decide; try lia.
  replace (S k + j - 1) with (k + j) by lia. reflexivity.
Qed.

(** The location a data row is read in does not depend on whether an
    earlier row has already replaced nil by UTC. *)
Lemma decodeRow_location (headers : gmap nat string) (location : option Location)
    (record : list string) :
  decodeRow zero cell set_RecordedTime timeFormat headers
    (match location with None => Some UTC | Some _ => location end) record
  = decodeRow zero cell set_RecordedTime timeFormat headers location record.
Proof. unfold decodeRow. destruct location; reflexivity. Qed.

(** One iteration of the loop on a data row, by [decodeRow]. *)
Lemma readLoop_row (record : list string) (r : Reader) (lineNum : nat)
    (headers : gmap nat string) (location : option Location) (records : list R) :
  lineNum <> 0 ->
  readLoop zero cell set_RecordedTime timeFormat (Fields record :: r) lineNum
    headers location records
  = match decodeRow zero cell set_RecordedTime timeFormat headers location record with
    | inr err => ([], Some err)
    | inl rec =>
        readLoop zero cell set_RecordedTime timeFormat r (S lineNum) headers
          (match location with None => Some UTC | Some _ => location end)
          (records ++ [rec])
    end.
Proof.
  intros Hn. simpl. destruct (Nat.eqb_spec lineNum 0) as [|_]; [done|].
  unfold decodeRow.
  destruct (rangeCells cell headers 0 record ("", "", zero))
    as [[[date timeStr] rec]|err]; [|reflexivity].
  destruct (parseDateTime _ _ _); reflexivity.
Qed.

(** A call that returns an error returns no record with it. *)
Lemma readLoop_error_nil (r : Reader) :
  forall lineNum headers location records result err,
    readLoop zero cell set_RecordedTime timeFormat r lineNum headers location records
    = (result, Some err) ->
    result = [].
Proof.
  induction r as [|[record|e] r IH];
    intros lineNum headers location records result err Hrun.
  - simpl in Hrun. congruence.
  - destruct lineNum as [|n].
    + simpl in Hrun. eapply IH, Hrun.
    + rewrite readLoop_row in Hrun by done.
      destruct (decodeRow _ _ _ _ _ _ _); [eapply IH, Hrun | congruence].
  - simpl in Hrun. congruence.
Qed.

(** A call that returns no error has read data rows only, and has added
    the record of each of them, in their order. *)
Lemma readLoop_success (r : Reader) :
  forall lineNum headers location records result,
    lineNum <> 0 ->
    readLoop zero cell set_RecordedTime timeFormat r lineNum headers location records
    = (result, None) ->
    exists (rows : list (list string)) (added : list R),
      r = map Fields rows /\ result = records ++ added /\
      Forall2 (fun row rec =>
                 decodeRow zero cell set_RecordedTime timeFormat headers location row
                 = inl rec) rows added.
Proof.
  induction r as [|[record|e] r IH];
    intros lineNum headers location records result Hn Hrun.
  - simpl in Hrun. exists [], []. rewrite app_nil_r.
    split; [reflexivity|]. split; [congruence | constructor].
  - rewrite readLoop_row in Hrun by done.
    destruct (decodeRow _ _ _ _ _ _ _) as [rec|] eqn:Hrow; [|congruence].
    apply IH in Hrun as (rows & added & -> & -> & Hall); [|lia].
    exists (record :: rows), (rec :: added).
    split; [reflexivity|]. split; [rewrite <- app_assoc; reflexivity|].
    constructor; [exact Hrow|].
    eapply Forall2_impl; [exact Hall|]. intros row rec' Hdec. cbv beta in *.
    rewrite <- decodeRow_location. exact Hdec.
  - simpl in Hrun. congruence.
Qed.

Lemma insertCells_cons (k : nat) (cellAt : nat -> string) (res : readResult)
    (r : Reader) :
  insertCells k cellAt (res :: r)
  = match res with
    | Fields record => Fields (insertAt k (cellAt 0) record)
    | Failed err => Failed err
    end :: insertCells k (fun n => cellAt (S n)) r.
Proof. reflexivity. Qed.

(** A data row with a cell more, under a header with an ignored column
    more at the same position, decodes to the same record. *)
Lemma decodeRow_insertAt (k : nat) (columnName x : string)
    (header record : list string) (location : option Location) :
  (forall v vars, cell columnName v vars = inl vars) ->
  k <= length header -> k <= length record ->
  decodeRow zero cell set_RecordedTime timeFormat
    (indexHeaders 0 (insertAt k columnName header) ∅) location (insertAt k x record)
  = decodeRow zero cell set_RecordedTime timeFormat
      (indexHeaders 0 header ∅) location record.
Proof.
  intros Hskip Hh Hr. unfold decodeRow.
  rewrite rangeCells_insertAt by done. reflexivity.
Qed.

Lemma readLoop_insertCells (k : nat) (columnName : string) (header : list string) :
  (forall v vars, cell columnName v vars = inl vars) ->
  k <= length header ->
  forall (r : Reader) (cellAt : nat -> string) lineNum location records,
    lineNum <> 0 -> columnFits k r ->
    readLoop zero cell set_RecordedTime timeFormat (insertCells k cellAt r) lineNum
      (indexHeaders 0 (insertAt k columnName header) ∅) location records
    = readLoop zero cell set_RecordedTime timeFormat r lineNum
        (indexHeaders 0 header ∅) location records.
Proof.
  intros Hskip Hh.
  induction r as [|[record|e] r IH];
    intros cellAt lineNum location records Hn Hfits.
  - reflexivity.
  - rewrite insertCells_cons, !readLoop_row by done.
    apply Forall_cons in Hfits as [Hrec Hfits].
    rewrite decodeRow_insertAt by done.
    destruct (decodeRow _ _ _ _ _ _ _); [|reflexivity].
    apply IH; [lia | exact Hfits].
  - reflexivity.
Qed.

(** An ignored column more in the input changes nothing of the result. *)
Lemma parseExport_insertColumn (k : nat) (columnName : string)
    (cellAt : nat -> string) (r : Reader) (location : option Location) :
  (forall v vars, cell columnName v vars = inl vars) ->
  columnFits k r ->
  parseExport zero cell set_RecordedTime timeFormat
    (insertColumn k columnName cellAt r) location
  = parseExport zero cell set_RecordedTime timeFormat r location.
Proof.
  intros Hskip Hfits. unfold parseExport, insertColumn.
  destruct r as [|[header|e] r]; [reflexivity| |reflexivity].
  apply Forall_cons in Hfits as [Hh Hfits].
  rewrite insertCells_cons. simpl.
  apply readLoop_insertCells; done.
Qed.

(** The iterations of the loop are determined by its variables. *)
Lemma iteration_deterministic vars o1 o2 :
  iteration zero cell set_RecordedTime timeFormat vars o1 ->
  iteration zero cell set_RecordedTime timeFormat vars o2 ->
  o1 = o2.
Proof.
  intros H1 H2.
  destruct H1; inversion H2; subst; try reflexivity; try congruence;
    repeat match goal with
           | Ha : ?x = _, Hb : ?x = _ |- _ => rewrite Ha in Hb; simplify_eq
           end;
    reflexivity.
Qed.

Lemma runs_deterministic vars result1 result2 :
  runs zero cell set_RecordedTime timeFormat vars result1 ->
  runs zero cell set_RecordedTime timeFormat vars result2 ->
  result1 = result2.
Proof.
  intros H1. revert result2.
  induction H1 as [vars result Hit | vars vars' result Hit _ IH];
    intros result2 H2; destruct H2 as [vars result2 Hit2 | vars vars2 result2 Hit2 H2].
  - pose proof (iteration_deterministic _ _ _ Hit Hit2). congruence.
  - pose proof (iteration_deterministic _ _ _ Hit Hit2). congruence.
  - pose proof (iteration_deterministic _ _ _ Hit Hit2). congruence.
  - pose proof (iteration_deterministic _ _ _ Hit Hit2) as Heq.
    injection Heq as <-. apply IH, H2.
Qed.

(** The loop runs to the result that [readLoop] computes. *)
Lemma runs_readLoop (r : Reader) :
  forall lineNum headers location records,
    runs zero cell set_RecordedTime timeFormat
      (r, lineNum, headers, location, records)
      (readLoop zero cell set_RecordedTime timeFormat r lineNum headers location
         records).
Proof.
  induction r as [|[record|e] r IH]; intros lineNum headers location records.
  - apply runs_return. constructor.
  - destruct lineNum as [|n].
    + eapply runs_next; [constructor|]. apply IH.
    + simpl.
      destruct (rangeCells cell headers 0 record ("", "", zero))
        as [[[date timeStr] rec]|err] eqn:Hcells.
      * destruct (parseDateTime _ _ _) as [t|err] eqn:Htime.
        -- eapply runs_next; [|apply IH].
           eapply iteration_row; [done | exact Hcells | exact Htime].
        -- apply runs_return.
           eapply iteration_time_error; [done | exact Hcells | exact Htime].
      * apply runs_return. apply iteration_cell_error; done.
  - apply runs_return. constructor.
Qed.

(** Every call has one result, and one only. *)
Lemma parseExport_unique_result (r : Reader) (location : option Location) :
  runs zero cell set_RecordedTime timeFormat (r, 0, ∅, location, [])
    (parseExport zero cell set_RecordedTime timeFormat r location)
  /\ forall result,
       runs zero cell set_RecordedTime timeFormat (r, 0, ∅, location, []) result ->
       result = parseExport zero cell set_RecordedTime timeFormat r location.
Proof.
  split; [apply runs_readLoop|].
  intros result Hrun. eapply runs_deterministic; [exact Hrun | apply runs_readLoop].
Qed.

(** The record of every data row, in order, for a call without error. *)
Lemma parseExport_success (r : Reader) (location : option Location)
    (records : list R) :
  parseExport zero cell set_RecordedTime timeFormat r location = (records, None) ->
  length records = length r - 1 /\
  (r = [] /\ records = [] \/
   exists (header : list string) (rows : list (list string)),
     r = Fields header :: map Fields rows /\
     Forall2 (fun row rec =>
                decodeRow zero cell set_RecordedTime timeFormat
                  (indexHeaders 0 header ∅) location row = inl rec) rows records).
Proof.
  unfold parseExport. intros Hrun.
  destruct r as [|[header|e] r]; simpl in Hrun.
  - injection Hrun as <-. split; [reflexivity | left; done].
  - apply readLoop_success in Hrun as (rows & added & -> & -> & Hall); [|lia].
    apply Forall2_length in Hall as Hlen.
    split; [simpl; rewrite length_map; lia|].
    right. exists header, rows. done.
  - congruence.
Qed.

Lemma parseExport_error_nil (r : Reader) (location : option Location)
    (records : list R) (err : error) :
  parseExport zero cell set_RecordedTime timeFormat r location = (records, Some err) ->
  records = [].
Proof. apply readLoop_error_nil. Qed.

Lemma parseExport_no_rows (location : option Location) :
  parseExport zero cell set_RecordedTime timeFormat [] location = ([], None)
  /\ forall header,
       parseExport zero cell set_RecordedTime timeFormat [Fields header] location
       = ([], None).
Proof. split; reflexivity. Qed.

Lemma parseExport_header (header : list string) (r : Reader)
    (location : option Location) :
  parseExport zero cell set_RecordedTime timeFormat (Fields header :: r) location
  = readLoop zero cell set_RecordedTime timeFormat r 1
      (indexHeaders 0 header ∅) location [].
Proof. reflexivity. Qed.

(** The first cell the switch returns an error for ends the row. *)
Lemma rangeCells_first_error (headers : gmap nat string)
    (before after : list string) (v : string)
    (vars vars' : string * string * R) (err : error) :
  rangeCells cell headers 0 before vars = inl vars' ->
  cell (headerAt headers (length before)) v vars' = inr err ->
  rangeCells cell headers 0 (before ++ v :: after) vars = inr err.
Proof.
  intros Hbefore Hcell. rewrite rangeCells_app, Hbefore. simpl.
  rewrite Hcell. reflexivity.
Qed.

(** The error of the first data row is the result of the call. *)
Lemma parseExport_first_row_error (header record : list string) (r : Reader)
    (location : option Location) (err : error) :
  decodeRow zero cell set_RecordedTime timeFormat
    (indexHeaders 0 header ∅) location record = inr err ->
  parseExport zero cell set_RecordedTime timeFormat
    (Fields header :: Fields record :: r) location
  = ([], Some err).
Proof.
  intros Hrow. rewrite parseExport_header, readLoop_row by done.
  rewrite Hrow. reflexivity.
Qed.

(** A row whose time of day is still empty after its cells fails at its
    timestamp, whatever its date. *)
Lemma decodeRow_empty_time (headers : gmap nat string) (location : option Location)
    (record : list string) (date : string) (rec : R) :
  rangeCells cell headers 0 record ("", "", zero) = inl (date, "", rec) ->
  exists err,
    decodeRow zero cell set_RecordedTime timeFormat headers location record
    = inr (Errorf timeFormat
             [Err (Errorf "invalid date/time format %q: %w"
                     [Str (date +:+ " 00:00 AM"); Err err])]).
Proof.
  intros Hcells. unfold decodeRow. rewrite Hcells.
  change (String.eqb "" "") with true. cbv iota.
  destruct (parseDateTime_entry_default_fails date
              (match location with None => Some UTC | Some _ => location end))
    as [err ->].
  by exists err.
Qed.

(** The number of the line matters for the header only. *)
Lemma readLoop_lineNum (r : Reader) :
  forall (n m : nat) headers location records,
    n <> 0 -> m <> 0 ->
    readLoop zero cell set_RecordedTime timeFormat r n headers location records
    = readLoop zero cell set_RecordedTime timeFormat r m headers location records.
Proof.
  induction r as [|[record|e] r IH]; intros n m headers location records Hn Hm;
    [reflexivity | | reflexivity].
  rewrite !readLoop_row by done.
  destruct (decodeRow _ _ _ _ _ _ _); [|reflexivity]. apply IH; lia.
Qed.

(** The data rows are read in UTC when the location is nil. *)
Lemma readLoop_location (r : Reader) (n : nat) headers location records :
  n <> 0 ->
  readLoop zero cell set_RecordedTime timeFormat r n headers
    (match location with None => Some UTC | Some _ => location end) records
  = readLoop zero cell set_RecordedTime timeFormat r n headers location records.
Proof.
  intros Hn. destruct location as [l|]; [reflexivity|].
  destruct r as [|[record|e] r]; [reflexivity | | reflexivity].
  rewrite !readLoop_row by done.
  rewrite (decodeRow_location headers None).
  reflexivity.
Qed.

Lemma parseExport_nil_location (r : Reader) :
  parseExport zero cell set_RecordedTime timeFormat r None
  = parseExport zero cell set_RecordedTime timeFormat r (Some UTC).
Proof.
  destruct r as [|[header|e] r]; [reflexivity | | reflexivity].
  rewrite !parseExport_header.
  symmetry. apply (readLoop_location r 1 _ None). done.
Qed.

(** Rows that decode are added to the records, and the loop goes on. *)
Lemma readLoop_rows_ok (rows : list (list string)) (added : list R) (r : Reader)
    headers location :
  Forall2 (fun row rec =>
             decodeRow zero cell set_RecordedTime timeFormat headers location row
             = inl rec) rows added ->
  forall n records,
    n <> 0 ->
    readLoop zero cell set_RecordedTime timeFormat (map Fields rows ++ r) n headers
      location records
    = readLoop zero cell set_RecordedTime timeFormat r n headers location
        (records ++ added).
Proof.
  induction 1 as [|row rec rows added Hrow _ IH]; intros n records Hn.
  - simpl. rewrite app_nil_r. reflexivity.
  - change (map Fields (row :: rows) ++ r)
      with (Fields row :: (map Fields rows ++ r)).
    rewrite readLoop_row, Hrow by done.
    rewrite readLoop_location by lia.
    rewrite (readLoop_lineNum _ (S n) n) by lia.
    rewrite IH by done. rewrite <- app_assoc. reflexivity.
Qed.

Lemma parseExport_rows_ok (header : list string) (rows : list (list string))
    (records : list R) (location : option Location) :
  Forall2 (fun row rec =>
             decodeRow zero cell set_RecordedTime timeFormat
               (indexHeaders 0 header ∅) location row = inl rec) rows records ->
  parseExport zero cell set_RecordedTime timeFormat
    (Fields header :: map Fields rows) location
  = (records, None).
Proof.
  intros Hrows. rewrite parseExport_header.
  rewrite <- (app_nil_r (map Fields rows)).
  rewrite (readLoop_rows_ok rows records [] _ _ Hrows) by done. reflexivity.
Qed.

(** After rows that decode, a row that does not, or a failed read, is the
    result of the call. *)
Lemma parseExport_first_failure (header : list string) (rows : list (list string))
    (records : list R) (location : option Location) (r : Reader) :
  Forall2 (fun row rec =>
             decodeRow zero cell set_RecordedTime timeFormat
               (indexHeaders 0 header ∅) location row = inl rec) rows records ->
  (forall row err,
     decodeRow zero cell set_RecordedTime timeFormat
       (indexHeaders 0 header ∅) location row = inr err ->
     parseExport zero cell set_RecordedTime timeFormat
       (Fields header :: map Fields rows ++ Fields row :: r) location
     = ([], Some err))
  /\ (forall err,
        parseExport zero cell set_RecordedTime timeFormat
          (Fields header :: map Fields rows ++ Failed err :: r) location
        = ([], Some err)).
Proof.
  intros Hrows. split.
  - intros row err Hrow. rewrite parseExport_header.
    rewrite (readLoop_rows_ok rows records _ _ _ Hrows) by done.
    rewrite readLoop_row, Hrow by done. reflexivity.
  - intros err. rewrite parseExport_header.
    rewrite (readLoop_rows_ok rows records _ _ _ Hrows) by done. reflexivity.
Qed.

End ExportFacts.

(** ** The timestamp of a row without a time of day *)

(** [parseDateTime] itself reads an empty time of day as midnight. *)
Lemma parseDateTime_empty_time (location : option Location) :
  parseDateTime "2023-05-01" "" location
  = inl (time_Date 2023 5 1 0 0 0 0
           (match location with None => UTC | Some l => l end)).
Proof. destruct location; vm_compute; reflexivity. Qed.

Lemma parseDateTime_afternoon :
  parseDateTime "2023-05-01" "14:30" (Some (LoadLocation "Europe/Paris"))
  = inl (time_Date 2023 5 1 14 30 0 0 (LoadLocation "Europe/Paris")).
Proof. vm_compute. reflexivity. Qed.

(** The time of day the entry points put in place of an empty one does not
    have the shape of the layout. *)
Lemma parseDateTime_entry_default (location : option Location) :
  parseDateTime "2023-05-01" "00:00 AM" location
  = inr (Errorf "invalid date/time format %q: %w"
           [Str "2023-05-01 00:00 AM";
            Err (ParseError DateTimeFormat "2023-05-01 00:00 AM" "" " AM"
                   (": extra text: " +:+ quote " AM"))]).
Proof. destruct location; vm_compute; reflexivity. Qed.

(** C1 (the code departs from it): a data row with a valid day and an
    empty time cell does not give a record at midnight of that day.  Each
    of the three entry points, on the header [Day, Time] and a row with an
    empty time, returns no record and the error of a timestamp that could
    not be read, whatever the day cell holds: the entry point replaces the
    empty time by [00:00 AM], and the layout [2006-01-02 15:04] accepts no
    value that does not end in the minute.  For the day [2023-05-01] the
    error is the one of the extra text [ AM].  [parseDateTime] alone reads
    that day with an empty time as midnight. *)
Theorem C1_empty_time_cell_fails
    (atof : string -> Z -> float64 + strconvErr) (f : family)
    (location : option Location) :
  (forall date : string,
     exists err,
       Parse atof f [Fields ["Day"; "Time"]; Fields [date; ""]] location
       = ([], Some (Errorf (match f with
                            | Servings => "parsing serving time: %w"
                            | Exercises => "parsing exercise time: %w"
                            | Biometrics => "parsing biometric time: %w"
                            end)
                      [Err (Errorf "invalid date/time format %q: %w"
                              [Str (date +:+ " 00:00 AM"); Err err])])))
  /\ Parse atof f [Fields ["Day"; "Time"]; Fields ["2023-05-01"; ""]] location
     = ([], Some (Errorf (match f with
                          | Servings => "parsing serving time: %w"
                          | Exercises => "parsing exercise time: %w"
                          | Biometrics => "parsing biometric time: %w"
                          end)
                    [Err (Errorf "invalid date/time format %q: %w"
                            [Str "2023-05-01 00:00 AM";
                             Err (ParseError DateTimeFormat "2023-05-01 00:00 AM"
                                    "" " AM" (": extra text: " +:+ quote " AM"))])]))
  /\ parseDateTime "2023-05-01" "" location
     = inl (time_Date 2023 5 1 0 0 0 0
              (match location with None => UTC | Some l => l end)).
Proof.
  split; [|split; [|apply parseDateTime_empty_time]].
  - intros date.
    destruct f; unfold Parse, ParseServingsExport, ParseExerciseExport,
      ParseBiometricRecordsExport.
    + destruct (decodeRow_empty_time ServingRecord.zero (servingCell atof)
                  ServingRecord.set_RecordedTime "parsing serving time: %w"
                  (indexHeaders 0 ["Day"; "Time"] ∅) location [date; ""]
                  date ServingRecord.zero) as [err Herr];
        [vm_compute; reflexivity|].
      exists err. apply parseExport_first_row_error, Herr.
    + destruct (decodeRow_empty_time ExerciseRecord.zero (exerciseCell atof)
                  ExerciseRecord.set_RecordedTime "parsing exercise time: %w"
                  (indexHeaders 0 ["Day"; "Time"] ∅) location [date; ""]
                  date ExerciseRecord.zero) as [err Herr];
        [vm_compute; reflexivity|].
      exists err. apply parseExport_first_row_error, Herr.
    + destruct (decodeRow_empty_time BiometricRecord.zero (biometricCell atof)
                  BiometricRecord.set_RecordedTime "parsing biometric time: %w"
                  (indexHeaders 0 ["Day"; "Time"] ∅) location [date; ""]
                  date BiometricRecord.zero) as [err Herr];
        [vm_compute; reflexivity|].
      exists err. apply parseExport_first_row_error, Herr.
  - destruct f, location; vm_compute; reflexivity.
Qed.

(** ** The errors of numeric cells *)

Section CellFacts.
Variable atof : string -> Z -> float64 + strconvErr.

Lemma parseFloat_empty (bitSize : Z) : parseFloat atof "" bitSize = inl 0%float.
Proof. reflexivity. Qed.

Lemma parseFloat_error (s : string) (bitSize : Z) (e : strconvErr) :
  s <> "" -> atof s bitSize = inr e ->
  parseFloat atof s bitSize = inr (NumError "ParseFloat" s e).
Proof.
  intros Hs Hatof. unfold parseFloat, strconv_ParseFloat.
  destruct (String.eqb_spec s ""); [done|]. rewrite Hatof. reflexivity.
Qed.

Lemma parseFloat_error_inv (s : string) (bitSize : Z) (err : error) :
  parseFloat atof s bitSize = inr err ->
  s <> "" /\ exists e, atof s bitSize = inr e /\ err = NumError "ParseFloat" s e.
Proof.
  unfold parseFloat, strconv_ParseFloat.
  destruct (String.eqb_spec s ""); [discriminate|].
  destruct (atof s bitSize) as [f|e]; [discriminate|].
  intros [= <-]. split; [done|]. exists e. done.
Qed.

End CellFacts.

(** C2 (the code departs from it): a numeric cell that does not convert is
    reported with the name of its column only in the servings family.  In
    an exercise export the cell [abc] of the column [Minutes] is reported
    as [parsing energy: ...], and one of [Calories Burned] as
    [parsing caffeine: ...]; in a biometric export the cell [abc] of
    [Amount] is reported as [parsing energy: ...].  The offending text is
    carried by the conversion error inside; the field is not named. *)
Theorem C2_numeric_error_names_wrong_field
    (atof : string -> Z -> float64 + strconvErr) (e : strconvErr)
    (location : option Location)
    (Hbad : atof "abc" 64%Z = inr e) :
  let minutes := Errorf "parsing energy: %s" [Err (NumError "ParseFloat" "abc" e)] in
  let calories := Errorf "parsing caffeine: %s" [Err (NumError "ParseFloat" "abc" e)] in
  Parse atof Exercises
    [Fields ["Day"; "Time"; "Exercise"; "Minutes"; "Calories Burned"];
     Fields ["2023-05-01"; "10:00"; "Run"; "abc"; ""]] location
  = ([], Some minutes)
  /\ Parse atof Exercises
       [Fields ["Day"; "Time"; "Exercise"; "Minutes"; "Calories Burned"];
        Fields ["2023-05-01"; "10:00"; "Run"; ""; "abc"]] location
     = ([], Some calories)
  /\ Parse atof Biometrics
       [Fields ["Day"; "Time"; "Metric"; "Unit"; "Amount"];
        Fields ["2023-05-01"; "10:00"; "Weight"; "kg"; "abc"]] location
     = ([], Some minutes)
  /\ mentions "abc" minutes = true
  /\ mentions "Minutes" minutes = false
  /\ mentions "Amount" minutes = false
  /\ mentions "Calories" calories = false.
Proof.
  cbv zeta. unfold Parse, ParseExerciseExport, ParseBiometricRecordsExport.
  split; [|split; [|split]].
  - apply parseExport_first_row_error. unfold decodeRow.
    erewrite (rangeCells_first_error _ _ ["2023-05-01"; "10:00"; "Run"] [""] "abc");
      [reflexivity | vm_compute; reflexivity |].
    vm_compute. rewrite Hbad. reflexivity.
  - apply parseExport_first_row_error. unfold decodeRow.
    erewrite (rangeCells_first_error _ _ ["2023-05-01"; "10:00"; "Run"; ""] [] "abc");
      [reflexivity | vm_compute; reflexivity |].
    vm_compute. rewrite Hbad. reflexivity.
  - apply parseExport_first_row_error. unfold decodeRow.
    erewrite (rangeCells_first_error _ _ ["2023-05-01"; "10:00"; "Weight"; "kg"] [] "abc");
      [reflexivity | vm_compute; reflexivity |].
    vm_compute. rewrite Hbad. reflexivity.
  - destruct e; vm_compute; done.
Qed.

(** ** Columns the switches have no case for *)

Lemma eqb_of_not_elem (columnName name : string) (names : list string) :
  columnName ∉ names -> name ∈ names -> String.eqb columnName name = false.
Proof.
  intros Hnot Hin. apply String.eqb_neq. intros ->. done.
Qed.

Lemma nutrientColumn_None (table : list (string * (nutrientField * string)))
    (columnName : string) :
  columnName ∉ map fst table -> nutrientColumn table columnName = None.
Proof.
  induction table as [|[name target] table IH]; simpl; intros Hnot.
  - reflexivity.
  - apply not_elem_of_cons in Hnot as [Hne Hnot].
    destruct (String.eqb_spec columnName name); [done|]. apply IH, Hnot.
Qed.

Lemma nutrientColumn_Some (table : list (string * (nutrientField * string)))
    (columnName : string) (target : nutrientField * string) :
  nutrientColumn table columnName = Some target ->
  (columnName, target) ∈ table.
Proof.
  induction table as [|[name target'] table IH]; simpl; [discriminate|].
  destruct (String.eqb_spec columnName name) as [->|_].
  - intros [= ->]. left.
  - intros H. right. apply IH, H.
Qed.

Ltac elem_of_now :=
  repeat first [apply list_elem_of_here | apply list_elem_of_further].

Section SwitchFacts.
Variable atof : string -> Z -> float64 + strconvErr.

Lemma servingCell_other (columnName v : string)
    (vars : string * string * ServingRecord.t) :
  columnName ∉ servingColumns -> servingCell atof columnName v vars = inl vars.
Proof.
  intros Hnot. unfold servingCell. destruct vars as [[date timeStr] serving].
  unfold servingColumns in Hnot.
  apply not_elem_of_app in Hnot as [Hbase Hnot].
  apply not_elem_of_app in Hnot as [Hnutrient Hcategory].
  rewrite !(eqb_of_not_elem columnName _ _ Hbase) by elem_of_now.
  rewrite nutrientColumn_None by exact Hnutrient.
  rewrite (eqb_of_not_elem columnName _ _ Hcategory) by elem_of_now.
  reflexivity.
Qed.

Lemma exerciseCell_other (columnName v : string)
    (vars : string * string * ExerciseRecord.t) :
  columnName ∉ exerciseColumns -> exerciseCell atof columnName v vars = inl vars.
Proof.
  intros Hnot. unfold exerciseCell. destruct vars as [[date timeStr] exercise].
  rewrite !(eqb_of_not_elem columnName _ exerciseColumns Hnot) by elem_of_now.
  reflexivity.
Qed.

Lemma biometricCell_other (columnName v : string)
    (vars : string * string * BiometricRecord.t) :
  columnName ∉ biometricColumns -> biometricCell atof columnName v vars = inl vars.
Proof.
  intros Hnot. unfold biometricCell. destruct vars as [[date timeStr] bioRecord].
  rewrite !(eqb_of_not_elem columnName _ biometricColumns Hnot) by elem_of_now.
  reflexivity.
Qed.

End SwitchFacts.

(** ** The record collection *)

(** C6: a call that succeeds returns exactly one record for every row
    after the header, in the order of the rows: the reader gave records
    only, the result is as long as the rows after the first, and its
    [n]-th record is what the loop body decodes from the [n]-th of them. *)
Theorem C6_one_record_per_data_row
    (atof : string -> Z -> float64 + strconvErr) (f : family) (r : Reader)
    (location : option Location) (records : list (recordOf f))
    (Hok : Parse atof f r location = (records, None)) :
  length records = length r - 1 /\
  (r = [] /\ records = [] \/
   exists (header : list string) (rows : list (list string)),
     r = Fields header :: map Fields rows /\
     Forall2 (fun row rec =>
                decodeRowOf atof f (indexHeaders 0 header ∅) location row = inl rec)
       rows records).
Proof.
  destruct f; simpl in *; eapply parseExport_success; exact Hok.
Qed.

(** C8: a column whose name the switch has no case for is ignored: the
    same input with such a column at a position [k] that every record has,
    whatever its cells hold, gives the same result, records and error. *)
Theorem C8_unrecognized_column_ignored
    (atof : string -> Z -> float64 + strconvErr) (f : family) (k : nat)
    (columnName : string) (cellAt : nat -> string) (r : Reader)
    (location : option Location)
    (Hname : columnName ∉ columnsOf f)
    (Hfits : columnFits k r) :
  Parse atof f (insertColumn k columnName cellAt r) location
  = Parse atof f r location.
Proof.
  destruct f; simpl in *; apply parseExport_insertColumn; try done; intros v vars.
  - apply servingCell_other, Hname.
  - apply exerciseCell_other, Hname.
  - apply biometricCell_other, Hname.
Qed.

(** C9: an entry point is deterministic: from the same reader and the same
    location the loop has one result only, so two calls return equal
    results; that result exists, it is the one [Parse] computes. *)
Theorem C9_parse_deterministic
    (atof : string -> Z -> float64 + strconvErr) (f : family) (r : Reader)
    (location : option Location) :
  (forall result1 result2,
     runsOf atof f r location result1 -> runsOf atof f r location result2 ->
     result1 = result2)
  /\ runsOf atof f r location (Parse atof f r location).
Proof.
  destruct f; simpl; (split; [intros ? ?; apply runs_deterministic | apply runs_readLoop]).
Qed.

(** C10: an input with no row, or with a header row only, whatever the
    header holds, gives the empty collection and no error. *)
Theorem C10_no_data_rows
    (atof : string -> Z -> float64 + strconvErr) (f : family)
    (location : option Location) :
  Parse atof f [] location = ([], None)
  /\ forall header : list string,
       Parse atof f [Fields header] location = ([], None).
Proof. destruct f; split; reflexivity. Qed.

(** ** The amount cell of a serving *)

Lemma Contains_space_cons (c : ascii) (rest : string) :
  strings_Contains (String c rest) " "
  = Ascii.eqb c " " || strings_Contains rest " ".
Proof.
  change (strings_Contains (String c rest) " ")
    with ((if ascii_dec " " c then String.prefix "" rest else false)
          || strings_Contains rest " ").
  destruct (ascii_dec " " c) as [<-|Hne].
  - destruct rest; reflexivity.
  - destruct (Ascii.eqb_spec c " ") as [->|_]; [done | reflexivity].
Qed.

Lemma cutAt_no_space (s : string) :
  strings_Contains s " " = false -> cutAt " " s = None.
Proof.
  induction s as [|c rest IH]; [reflexivity|].
  rewrite Contains_space_cons. intros [Hc Hrest]%orb_false_elim.
  simpl. rewrite Hc, (IH Hrest). reflexivity.
Qed.

Lemma cutAt_first_space (value unit : string) :
  strings_Contains value " " = false ->
  cutAt " " (value +:+ String " " unit) = Some (value, unit).
Proof.
  induction value as [|c rest IH]; [reflexivity|].
  rewrite Contains_space_cons. intros [Hc Hrest]%orb_false_elim.
  simpl. rewrite Hc, (IH Hrest). reflexivity.
Qed.

(** C3 (amended): the amount cell of a serving is split at its first space
    character (U+0020, one byte, not a run of whitespace) into the text
    before it, which is converted, and everything after it, which is the
    unit as it stands.  [123.4 g] gives the quantity 123.4 and the unit
    [g].  A cell without a space character fails with the format error
    that carries the cell. *)
Theorem C3_amount_split_at_first_space
    (atof : string -> Z -> float64 + strconvErr)
    (H123 : atof "123.4" 64%Z = inl 123.4%float) :
  (forall (value unit date timeStr : string) (serving : ServingRecord.t),
     strings_Contains value " " = false ->
     servingCell atof "Amount" (value +:+ String " " unit) (date, timeStr, serving)
     = match parseFloat atof value 64 with
       | inl f =>
           inl (date, timeStr,
                ServingRecord.set_QuantityUnits unit
                  (ServingRecord.set_QuantityValue f serving))
       | inr err =>
           inr (Errorf "parsing quantity value %q: %w" [Str value; Err err])
       end)
  /\ (forall (date timeStr : string) (serving : ServingRecord.t),
        exists serving',
          servingCell atof "Amount" "123.4 g" (date, timeStr, serving)
          = inl (date, timeStr, serving')
          /\ ServingRecord.QuantityValue serving' = 123.4%float
          /\ ServingRecord.QuantityUnits serving' = "g")
  /\ (forall (v : string) (vars : string * string * ServingRecord.t),
        strings_Contains v " " = false ->
        servingCell atof "Amount" v vars
        = inr (Errorf "invalid amount format %q, expected 'value unit'" [Str v])).
Proof.
  assert (forall v vars,
            servingCell atof "Amount" v vars
            = let '(date, timeStr, serving) := vars in
              match strings_SplitN2 v " " with
              | [part0; part1] =>
                  match parseFloat atof part0 64 with
                  | inr err =>
                      inr (Errorf "parsing quantity value %q: %w" [Str part0; Err err])
                  | inl f =>
                      inl (date, timeStr,
                           ServingRecord.set_QuantityUnits part1
                             (ServingRecord.set_QuantityValue f serving))
                  end
              | _ => inr (Errorf "invalid amount format %q, expected 'value unit'"
                            [Str v])
              end) as Hcase
    by (intros v [[date timeStr] serving]; reflexivity).
  split; [|split].
  - intros value unit date timeStr serving Hvalue.
    rewrite Hcase. unfold strings_SplitN2.
    rewrite (cutAt_first_space value unit Hvalue).
    destruct (parseFloat atof value 64); reflexivity.
  - intros date timeStr serving. rewrite Hcase.
    change (strings_SplitN2 "123.4 g" " ") with ["123.4"; "g"].
    unfold parseFloat, strconv_ParseFloat.
    change (String.eqb "123.4" "") with false. cbv iota. rewrite H123.
    eexists. split; [reflexivity|]. split; reflexivity.
  - intros v [[date timeStr] serving] Hv.
    rewrite Hcase. unfold strings_SplitN2.
    rewrite (cutAt_no_space v Hv). reflexivity.
Qed.

(** ** The amount cell of a biometric record *)

Section BiometricFacts.
Variable atof : string -> Z -> float64 + strconvErr.

Lemma biometricCell_slash (v : string) (vars : string * string * BiometricRecord.t) :
  strings_Contains v "/" = true -> biometricCell atof "Amount" v vars = inl vars.
Proof.
  intros Hv. destruct vars as [[date timeStr] bioRecord].
  unfold biometricCell.
  change (String.eqb "Amount" "Day") with false.
  change (String.eqb "Amount" "Time") with false.
  change (String.eqb "Amount" "Metric") with false.
  change (String.eqb "Amount" "Unit") with false.
  change (String.eqb "Amount" "Amount") with true.
  cbv iota. rewrite Hv. reflexivity.
Qed.

(** When every cell under an [Amount] header holds a slash, the cells of
    the row are decoded without error and leave [Amount] as it was. *)
Lemma biometric_rangeCells_amount (headers : gmap nat string) (record : list string) :
  forall (i : nat) (vars : string * string * BiometricRecord.t),
    (forall j v, record !! j = Some v -> headerAt headers (i + j) = "Amount" ->
                 strings_Contains v "/" = true) ->
    exists vars',
      rangeCells (biometricCell atof) headers i record vars = inl vars'
      /\ BiometricRecord.Amount vars'.2 = BiometricRecord.Amount vars.2.
Proof.
  induction record as [|v record IH]; intros i vars Hslash; simpl.
  - exists vars. done.
  - assert (exists vars1,
              biometricCell atof (headerAt headers i) v vars = inl vars1
              /\ BiometricRecord.Amount vars1.2 = BiometricRecord.Amount vars.2)
      as (vars1 & -> & Hamount).
    { destruct vars as [[date timeStr] bioRecord]. unfold biometricCell.
      repeat match goal with
             | |- context [String.eqb ?a ?b] =>
                 destruct (String.eqb_spec a b) as [Heq|_];
                 [try (eexists; split; [reflexivity|reflexivity])|]
             end.
      - rewrite (Hslash 0 v eq_refl) by (rewrite Nat.add_0_r; exact Heq).
        eexists; split; reflexivity.
      - eexists; split; reflexivity. }
    destruct (IH (S i) vars1) as (vars' & Hrun & Hamount').
    { intros j w Hw Hh. apply (Hslash (S j) w Hw).
      rewrite Nat.add_succ_r. exact Hh. }
    exists vars'. split; [exact Hrun | congruence].
Qed.

End BiometricFacts.

(** C4 (amended): in a biometric export an [Amount] cell that holds a
    slash is not converted and raises no error, whatever else it holds:
    the switch leaves the variables of the row, the amount among them, as
    they were.  The amount of the record is 0 when every cell of the row
    under an [Amount] header holds a slash, as with one [Amount] column:
    the cells of such a row are decoded without error and the row can only
    fail at its timestamp.  The row with the amount [120/80] gives a
    record with the amount 0 and no error. *)
Theorem C4_slash_amount_cell_is_skipped
    (atof : string -> Z -> float64 + strconvErr) :
  (forall (v : string) (vars : string * string * BiometricRecord.t),
     strings_Contains v "/" = true ->
     biometricCell atof "Amount" v vars = inl vars)
  /\ (forall (headers : gmap nat string) (location : option Location)
        (record : list string),
        (forall j v, record !! j = Some v -> headerAt headers j = "Amount" ->
                     strings_Contains v "/" = true) ->
        (exists date timeStr bioRecord,
           rangeCells (biometricCell atof) headers 0 record
             ("", "", BiometricRecord.zero)
           = inl (date, timeStr, bioRecord)
           /\ BiometricRecord.Amount bioRecord = 0%float)
        /\ match decodeRowOf atof Biometrics headers location record with
           | inl bioRecord => BiometricRecord.Amount bioRecord = 0%float
           | inr err => exists e, err = Errorf "parsing biometric time: %w" [Err e]
           end)
  /\ (forall location : option Location,
        Parse atof Biometrics
          [Fields ["Day"; "Time"; "Metric"; "Unit"; "Amount"];
           Fields ["2023-05-01"; "08:00"; "Blood Pressure"; "mmHg"; "120/80"]]
          location
        = ([BiometricRecord.mk
              (time_Date 2023 5 1 8 0 0 0
                 (match location with None => UTC | Some l => l end))
              "Blood Pressure" "mmHg" 0%float], None)).
Proof.
  split; [|split].
  - intros v vars Hv. apply biometricCell_slash, Hv.
  - intros headers location record Hslash.
    destruct (biometric_rangeCells_amount atof headers record 0
                ("", "", BiometricRecord.zero) Hslash)
      as ([[date timeStr] bioRecord] & Hrun & Hamount).
    simpl in Hamount. split.
    + exists date, timeStr, bioRecord. done.
    + simpl. unfold decodeRow. rewrite Hrun.
      destruct (parseDateTime _ _ _) as [t|e]; [exact Hamount | by exists e].
  - intros location. destruct location; vm_compute; reflexivity.
Qed.

(** ** Numeric cells *)

Lemma nutrientColumns_names :
  Forall (fun entry : string * (nutrientField * string) =>
            entry.1 ∉ ["Day"; "Time"; "Group"; "Food Name"; "Amount"])
    nutrientColumns.
Proof.
  unfold nutrientColumns.
  repeat (apply Forall_cons; split;
          [simpl; intros Hin;
           repeat (apply elem_of_cons in Hin as [Hin|Hin]; [discriminate|]);
           by apply elem_of_nil in Hin |]).
  apply Forall_nil. done.
Qed.

Lemma nutrientField_beq_refl (field : nutrientField) :
  nutrientField_beq field field = true.
Proof. destruct field; reflexivity. Qed.

Section NumericFacts.
Variable atof : string -> Z -> float64 + strconvErr.

(** The case of a nutrient column: the value goes to the field of the
    column, a failure is returned as [parseNutrientFloat] made it. *)
Lemma servingCell_nutrient (columnName v nutrient date timeStr : string)
    (field : nutrientField) (serving : ServingRecord.t) :
  nutrientColumn nutrientColumns columnName = Some (field, nutrient) ->
  servingCell atof columnName v (date, timeStr, serving)
  = match parseNutrientFloat atof v nutrient with
    | inr err => inr err
    | inl f => inl (date, timeStr, ServingRecord.set_Nutrient field f serving)
    end.
Proof.
  intros Hcol.
  pose proof (nutrientColumn_Some _ _ _ Hcol) as Hin.
  pose proof (proj1 (Forall_forall _ _) nutrientColumns_names _ Hin) as Hbase.
  simpl in Hbase. unfold servingCell.
  rewrite !(eqb_of_not_elem columnName _ _ Hbase) by elem_of_now.
  rewrite Hcol. reflexivity.
Qed.

(** A nutrient cell that does not convert: the error names the nutrient of
    the column and carries the cell. *)
Lemma servingCell_nutrient_error (columnName v nutrient : string)
    (field : nutrientField) (vars : string * string * ServingRecord.t)
    (e : strconvErr) :
  nutrientColumn nutrientColumns columnName = Some (field, nutrient) ->
  v <> "" -> atof v 64%Z = inr e ->
  servingCell atof columnName v vars
  = inr (Errorf "parsing %s value %q: %w"
           [Str nutrient; Str v; Err (NumError "ParseFloat" v e)]).
Proof.
  intros Hcol Hv He. destruct vars as [[date timeStr] serving].
  rewrite (servingCell_nutrient _ _ _ _ _ _ _ Hcol).
  unfold parseNutrientFloat. rewrite (parseFloat_error atof v 64 e Hv He).
  reflexivity.
Qed.

End NumericFacts.

(** C5 (amended): for every numeric field but the quantity of a serving,
    an empty cell gives exactly 0 and no error: [parseFloat] maps the
    empty string to 0, so only a text that is not empty can fail to
    convert, and every nutrient column, the exercise columns [Minutes] and
    [Calories Burned] and the biometric column [Amount] (whose empty cell
    holds no slash) store that 0.  The quantity of a serving comes from
    the amount cell, whose numeric part may be empty (a cell that starts
    with its space gives the quantity 0). *)
Theorem C5_empty_numeric_cell_is_zero
    (atof : string -> Z -> float64 + strconvErr) :
  (forall bitSize, parseFloat atof "" bitSize = inl 0%float)
  /\ (forall s bitSize err, parseFloat atof s bitSize = inr err -> s <> "")
  /\ (forall nutrient, parseNutrientFloat atof "" nutrient = inl 0%float)
  /\ (forall columnName field nutrient date timeStr serving,
        nutrientColumn nutrientColumns columnName = Some (field, nutrient) ->
        servingCell atof columnName "" (date, timeStr, serving)
        = inl (date, timeStr, ServingRecord.set_Nutrient field 0%float serving)
        /\ ServingRecord.Nutrients
             (ServingRecord.set_Nutrient field 0%float serving) field = 0%float)
  /\ (forall date timeStr exercise,
        exerciseCell atof "Minutes" "" (date, timeStr, exercise)
        = inl (date, timeStr, ExerciseRecord.set_Minutes 0%float exercise)
        /\ exerciseCell atof "Calories Burned" "" (date, timeStr, exercise)
           = inl (date, timeStr, ExerciseRecord.set_CaloriesBurned 0%float exercise))
  /\ (forall date timeStr bioRecord,
        biometricCell atof "Amount" "" (date, timeStr, bioRecord)
        = inl (date, timeStr, BiometricRecord.set_Amount 0%float bioRecord))
  /\ (forall unit date timeStr serving,
        servingCell atof "Amount" (String " " unit) (date, timeStr, serving)
        = inl (date, timeStr,
               ServingRecord.set_QuantityUnits unit
                 (ServingRecord.set_QuantityValue 0%float serving))).
Proof.
  split; [reflexivity|].
  split; [intros s bitSize err Herr; apply (parseFloat_error_inv atof _ _ _ Herr)|].
  split; [reflexivity|].
  split.
  { intros columnName field nutrient date timeStr serving Hcol.
    rewrite (servingCell_nutrient atof _ _ _ _ _ _ _ Hcol).
    split; [reflexivity|]. simpl. rewrite nutrientField_beq_refl. reflexivity. }
  split; [intros; split; reflexivity|].
  split; [intros; reflexivity|].
  intros; reflexivity.
Qed.

(** ** Failures *)

(** The cells the switch of a family returns an error for, by
    [cellError]. *)
Lemma cellError_fails (atof : string -> Z -> float64 + strconvErr) (f : family)
    (columnName v : string) (err : error) :
  cellError atof f columnName v err ->
  forall vars : string * string * recordOf f,
    cellOf atof f columnName v vars = inr err.
Proof.
  intros [v0 Hv|v0 part0 part1 e Hcut Hne He|name v0 nutrient field e Hcol Hne He
         |v0 e Hne He|v0 e Hne He|v0 e Hne Hslash He] vars; cbn [cellOf].
  - destruct vars as [[date timeStr] rec]. simpl.
    unfold strings_SplitN2. rewrite (cutAt_no_space _ Hv). reflexivity.
  - destruct vars as [[date timeStr] rec]. simpl.
    unfold strings_SplitN2. rewrite Hcut.
    rewrite (parseFloat_error atof part0 64 e Hne He). reflexivity.
  - eapply servingCell_nutrient_error; eassumption.
  - destruct vars as [[date timeStr] rec]. simpl.
    rewrite (parseFloat_error atof v0 64 e Hne He). reflexivity.
  - destruct vars as [[date timeStr] rec]. simpl.
    rewrite (parseFloat_error atof v0 64 e Hne He). reflexivity.
  - destruct vars as [[date timeStr] rec]. simpl.
    rewrite Hslash. simpl.
    rewrite (parseFloat_error atof v0 64 e Hne He). reflexivity.
Qed.

(** A row fails at the first cell its switch returns an error for, and at
    its timestamp when the cells are accepted and [parseDateTime] fails. *)
Lemma decodeRowOf_cells_error (atof : string -> Z -> float64 + strconvErr)
    (f : family) (headers : gmap nat string) (location : option Location)
    (record : list string) (err : error) :
  rangeCells (cellOf atof f) headers 0 record ("", "", zeroOf f) = inr err ->
  decodeRowOf atof f headers location record = inr err.
Proof.
  intros Hcells. destruct f; simpl in *; unfold decodeRow; rewrite Hcells;
    reflexivity.
Qed.

Lemma decodeRowOf_time_error (atof : string -> Z -> float64 + strconvErr)
    (f : family) (headers : gmap nat string) (location : option Location)
    (record : list string) (date timeStr : string) (rec : recordOf f)
    (err : error) :
  rangeCells (cellOf atof f) headers 0 record ("", "", zeroOf f)
  = inl (date, timeStr, rec) ->
  parseDateTime date (if String.eqb timeStr "" then "00:00 AM" else timeStr)
    location = inr err ->
  decodeRowOf atof f headers location record
  = inr (Errorf (timeFormatOf f) [Err err]).
Proof.
  intros Hcells Htime. destruct f; simpl in *; unfold decodeRow;
    rewrite Hcells, parseDateTime_location, Htime; reflexivity.
Qed.

(** C7: every failure aborts the whole call, which returns the error and
    no record, never the records decoded so far.  A call that returns an
    error returns no record with it.  A failed read of the header is the
    result of the call.  After the header and any number of rows that
    decode, each of these makes the call return no record and the error,
    whatever follows in the input: a failed read; a row with a cell the
    switch returns an error for after cells it accepts, that is an amount
    cell of a serving without a space or a numeric cell that does not
    convert ([cellError]); a row whose timestamp [parseDateTime] does not
    read, whose error is wrapped; in general a row that does not
    decode. *)
Theorem C7_every_failure_aborts_the_call
    (atof : string -> Z -> float64 + strconvErr) (f : family)
    (location : option Location) :
  (forall (r : Reader) (records : list (recordOf f)) (err : error),
     Parse atof f r location = (records, Some err) -> records = [])
  /\ (forall (err : error) (r : Reader),
        Parse atof f (Failed err :: r) location = ([], Some err))
  /\ (forall (header : list string) (rows : list (list string))
        (records : list (recordOf f)) (r : Reader),
        Forall2 (fun row rec =>
                   decodeRowOf atof f (indexHeaders 0 header ∅) location row
                   = inl rec) rows records ->
        (forall err,
           Parse atof f (Fields header :: map Fields rows ++ Failed err :: r)
             location
           = ([], Some err))
        /\ (forall (before after : list string) (v : string)
              (vars : string * string * recordOf f) (err : error),
              rangeCells (cellOf atof f) (indexHeaders 0 header ∅) 0 before
                ("", "", zeroOf f) = inl vars ->
              cellError atof f
                (headerAt (indexHeaders 0 header ∅) (length before)) v err ->
              Parse atof f
                (Fields header :: map Fields rows
                 ++ Fields (before ++ v :: after) :: r) location
              = ([], Some err))
        /\ (forall (record : list string) (date timeStr : string)
              (rec : recordOf f) (err : error),
              rangeCells (cellOf atof f) (indexHeaders 0 header ∅) 0 record
                ("", "", zeroOf f) = inl (date, timeStr, rec) ->
              parseDateTime date
                (if String.eqb timeStr "" then "00:00 AM" else timeStr) location
              = inr err ->
              Parse atof f (Fields header :: map Fields rows ++ Fields record :: r)
                location
              = ([], Some (Errorf (timeFormatOf f) [Err err])))
        /\ (forall (row : list string) (err : error),
              decodeRowOf atof f (indexHeaders 0 header ∅) location row = inr err ->
              Parse atof f (Fields header :: map Fields rows ++ Fields row :: r)
                location
              = ([], Some err))).
Proof.
  split; [|split].
  - intros r records err Hfail.
    destruct f; simpl in *; eapply parseExport_error_nil; exact Hfail.
  - intros err r. destruct f; reflexivity.
  - intros header rows records r Hrows.
    assert ((forall err,
               Parse atof f (Fields header :: map Fields rows ++ Failed err :: r)
                 location = ([], Some err))
            /\ (forall row err,
                  decodeRowOf atof f (indexHeaders 0 header ∅) location row
                  = inr err ->
                  Parse atof f
                    (Fields header :: map Fields rows ++ Fields row :: r) location
                  = ([], Some err))) as [Hread Hrow].
    { destruct f; simpl in Hrows, records |- *;
        eapply parseExport_first_failure in Hrows as [Hrow Hread];
        (split; [exact Hread | exact Hrow]). }
    split; [exact Hread|]. split; [|split; [|exact Hrow]].
    + intros before after v vars err Hbefore Hcell. apply Hrow.
      apply decodeRowOf_cells_error.
      eapply rangeCells_first_error;
        [exact Hbefore | apply cellError_fails, Hcell].
    + intros record date timeStr rec err Hcells Htime. apply Hrow.
      eapply decodeRowOf_time_error; eassumption.
Qed.

(** ** The results above at concrete inputs *)

Lemma C2_witness :
  decimalAtof "abc" 64%Z = inr ErrSyntax
  /\ Parse decimalAtof Exercises
       [Fields ["Day"; "Time"; "Exercise"; "Minutes"; "Calories Burned"];
        Fields ["2023-05-01"; "10:00"; "Run"; "abc"; ""]] None
     = ([], Some (Errorf "parsing energy: %s"
                    [Err (NumError "ParseFloat" "abc" ErrSyntax)])).
Proof.
  split; [vm_compute; reflexivity|].
  refine (proj1 (C2_numeric_error_names_wrong_field decimalAtof ErrSyntax None _)).
  vm_compute; reflexivity.
Defined.

Lemma C3_witness :
  decimalAtof "123.4" 64%Z = inl 123.4%float
  /\ exists serving',
       servingCell decimalAtof "Amount" "123.4 g" ("", "", ServingRecord.zero)
       = inl ("", "", serving')
       /\ ServingRecord.QuantityValue serving' = 123.4%float
       /\ ServingRecord.QuantityUnits serving' = "g".
Proof.
  split; [vm_compute; reflexivity|].
  refine (proj1 (proj2 (C3_amount_split_at_first_space decimalAtof _))
            "" "" ServingRecord.zero).
  vm_compute; reflexivity.
Defined.

(** The claim C3 as the specification words it fails on a cell with two
    spaces, whose unit keeps the second one, and on a cell with a tab,
    which is whitespace and is not split at all. *)
Lemma C3_counterexample :
  splitWhitespaceRun "1  g" = Some ("1", "g")
  /\ servingCell decimalAtof "Amount" "1  g" ("", "", ServingRecord.zero)
     = inl ("", "",
            ServingRecord.set_QuantityUnits " g"
              (ServingRecord.set_QuantityValue 1%float ServingRecord.zero))
  /\ splitWhitespaceRun (String "1" (String (ascii_of_nat 9) "g")) = Some ("1", "g")
  /\ servingCell decimalAtof "Amount" (String "1" (String (ascii_of_nat 9) "g"))
       ("", "", ServingRecord.zero)
     = inr (Errorf "invalid amount format %q, expected 'value unit'"
              [Str (String "1" (String (ascii_of_nat 9) "g"))]).
Proof. repeat split; vm_compute; reflexivity. Qed.

Lemma C4_witness :
  decodeRowOf decimalAtof Biometrics (indexHeaders 0 biometricHeader ∅) None
    bloodPressureRow
  = inl (BiometricRecord.mk (time_Date 2023 5 1 8 0 0 0 UTC)
           "Blood Pressure" "mmHg" 0%float)
  /\ match decodeRowOf decimalAtof Biometrics (indexHeaders 0 biometricHeader ∅)
             None bloodPressureRow with
     | inl bioRecord => BiometricRecord.Amount bioRecord = 0%float
     | inr err => exists e, err = Errorf "parsing biometric time: %w" [Err e]
     end.
Proof.
  split; [vm_compute; reflexivity|].
  refine (proj2 (proj1 (proj2 (C4_slash_amount_cell_is_skipped decimalAtof))
                   (indexHeaders 0 biometricHeader ∅) None bloodPressureRow _)).
  intros [|[|[|[|[|j]]]]] v Hv Hh; vm_compute in Hv, Hh;
    try discriminate.
  injection Hv as <-. vm_compute; reflexivity.
Defined.

(** The claim C4 as the specification words it fails on a row with two
    [Amount] columns: the cell [120/80] holds a slash and is skipped, and
    the amount of the record is the 71.5 of the other cell, not 0. *)
Lemma C4_counterexample :
  strings_Contains "120/80" "/" = true
  /\ decodeRowOf decimalAtof Biometrics
       (indexHeaders 0 ["Day"; "Time"; "Amount"; "Amount"] ∅) None
       ["2023-05-01"; "08:00"; "71.5"; "120/80"]
     = inl (BiometricRecord.mk (time_Date 2023 5 1 8 0 0 0 UTC) "" "" 71.5%float)
  /\ Parse decimalAtof Biometrics
       [Fields ["Day"; "Time"; "Amount"; "Amount"];
        Fields ["2023-05-01"; "08:00"; "71.5"; "120/80"]] None
     = ([BiometricRecord.mk (time_Date 2023 5 1 8 0 0 0 UTC) "" "" 71.5%float],
        None).
Proof. repeat split; vm_compute; reflexivity. Qed.

(** The claim C5 as the specification words it fails on the quantity of a
    serving: an empty amount cell is a format error, and the call returns
    it. *)
Lemma C5_counterexample :
  servingCell decimalAtof "Amount" "" ("", "", ServingRecord.zero)
  = inr (Errorf "invalid amount format %q, expected 'value unit'" [Str ""])
  /\ Parse decimalAtof Servings
       [Fields ["Day"; "Time"; "Amount"]; Fields ["2023-05-01"; "08:00"; ""]] None
     = ([], Some (Errorf "invalid amount format %q, expected 'value unit'"
                    [Str ""])).
Proof. split; vm_compute; reflexivity. Qed.

Lemma C6_witness :
  Parse decimalAtof Exercises exerciseExport None = (exerciseRecords, None)
  /\ length exerciseRecords = length exerciseExport - 1.
Proof.
  assert (Parse decimalAtof Exercises exerciseExport None = (exerciseRecords, None))
    as Hok by (vm_compute; reflexivity).
  split; [exact Hok|].
  exact (proj1 (C6_one_record_per_data_row decimalAtof Exercises exerciseExport
                  None exerciseRecords Hok)).
Defined.

Lemma C7_witness :
  Parse decimalAtof Exercises (take 3 exerciseExportBadRow) None
  = (exerciseRecords, None)
  /\ (Parse decimalAtof Exercises exerciseExportBadRow None).2
     = Some (Errorf "parsing energy: %s"
               [Err (NumError "ParseFloat" "abc" ErrSyntax)])
  /\ (Parse decimalAtof Exercises exerciseExportBadRow None).1 = [].
Proof.
  split; [vm_compute; reflexivity|].
  split; [vm_compute; reflexivity|].
  refine (proj1 (C7_every_failure_aborts_the_call decimalAtof Exercises None)
            exerciseExportBadRow _
            (Errorf "parsing energy: %s"
               [Err (NumError "ParseFloat" "abc" ErrSyntax)]) _).
  vm_compute; reflexivity.
Defined.

Lemma C8_witness :
  Parse decimalAtof Servings
    (insertColumn 2 "Notes" (fun _ => "no unit, abc") servingsExport) None
  = Parse decimalAtof Servings servingsExport None
  /\ length (Parse decimalAtof Servings servingsExport None).1 = 2
  /\ (Parse decimalAtof Servings servingsExport None).2 = None.
Proof.
  split; [|split; vm_compute; reflexivity].
  refine (C8_unrecognized_column_ignored decimalAtof Servings 2 "Notes"
            (fun _ => "no unit, abc") servingsExport None _ _).
  - vm_compute. intros Hin.
    repeat (apply elem_of_cons in Hin as [Hin|Hin]; [discriminate|]).
    by apply elem_of_nil in Hin.
  - repeat constructor; simpl; lia.
Defined.

(** ** More facts about the shared loop *)

Lemma time_ParseInLocation_error (value : string) (loc : Location) (err : error) :
  time_ParseInLocation value loc = inr err ->
  exists layoutElem valueElem message,
    err = ParseError DateTimeFormat value layoutElem valueElem message.
Proof.
  unfold time_ParseInLocation.
  repeat case_match; intros [= <-]; eauto.
Qed.

Lemma parseDateTime_error (date timeStr : string) (location : option Location)
    (err : error) :
  timeStr <> "" ->
  parseDateTime date timeStr location = inr err ->
  exists layoutElem valueElem message,
    err = Errorf "invalid date/time format %q: %w"
            [Str (date +:+ " " +:+ timeStr);
             Err (ParseError DateTimeFormat (date +:+ " " +:+ timeStr)
                    layoutElem valueElem message)].
Proof.
  intros Ht. unfold parseDateTime.
  destruct (String.eqb_spec timeStr "") as [|_]; [done|].
  destruct (time_ParseInLocation _ _) as [t|e] eqn:Hparse; [discriminate|].
  intros [= <-].
  apply time_ParseInLocation_error in Hparse as (le & ve & msg & ->). eauto.
Qed.

Lemma map_Fields_inj (rows1 rows2 : list (list string)) :
  map Fields rows1 = map Fields rows2 -> rows1 = rows2.
Proof.
  revert rows2. induction rows1 as [|row rows1 IH]; intros [|row2 rows2];
    simpl; try discriminate; [reflexivity|].
  intros [= -> Hrest]. f_equal. apply IH, Hrest.
Qed.

Section ExportMore.
Context {R : Type}.
Variable zero : R.
Variable cell : string -> string -> string * string * R -> string * string * R + error.
Variable set_RecordedTime : Time -> R -> R.
Variable timeFormat : string.

(** A call that has failed does not read on. *)
Lemma readLoop_error_stable (r r' : Reader) :
  forall n headers location records result err,
    readLoop zero cell set_RecordedTime timeFormat r n headers location records
    = (result, Some err) ->
    readLoop zero cell set_RecordedTime timeFormat (r ++ r') n headers location
      records
    = (result, Some err).
Proof.
  induction r as [|[record|e] r IH];
    intros n headers location records result err Hrun.
  - simpl in Hrun. congruence.
  - change ((Fields record :: r) ++ r') with (Fields record :: (r ++ r')).
    destruct n as [|n].
    + simpl in *. apply IH, Hrun.
    + rewrite readLoop_row in * by done.
      destruct (decodeRow _ _ _ _ _ _ _); [apply IH, Hrun | exact Hrun].
  - exact Hrun.
Qed.

(** Two exports under the same header, one after the other. *)
Lemma parseExport_concat (header : list string) (rows1 rows2 : list (list string))
    (records1 records2 : list R) (location : option Location) :
  parseExport zero cell set_RecordedTime timeFormat
    (Fields header :: map Fields rows1) location = (records1, None) ->
  parseExport zero cell set_RecordedTime timeFormat
    (Fields header :: map Fields rows2) location = (records2, None) ->
  parseExport zero cell set_RecordedTime timeFormat
    (Fields header :: map Fields (rows1 ++ rows2)) location
  = (records1 ++ records2, None).
Proof.
  intros H1 H2.
  apply parseExport_success in H1 as [_ [[? _]|(h1 & rs1 & Heq1 & Hall1)]];
    [discriminate|].
  apply parseExport_success in H2 as [_ [[? _]|(h2 & rs2 & Heq2 & Hall2)]];
    [discriminate|].
  injection Heq1 as <- Hrs1. injection Heq2 as <- Hrs2.
  apply map_Fields_inj in Hrs1 as <-. apply map_Fields_inj in Hrs2 as <-.
  apply parseExport_rows_ok, Forall2_app; done.
Qed.

(** Where an error of a call comes from: a failed read, a cell of a data
    row under the column of its position, or the timestamp of a data row
    whose cells the switch accepts. *)
Lemma rangeCells_error (headers : gmap nat string) (record : list string) :
  forall i vars err,
    rangeCells cell headers i record vars = inr err ->
    exists j v vars',
      record !! j = Some v /\ cell (headerAt headers (i + j)) v vars' = inr err.
Proof.
  induction record as [|v record IH]; intros i vars err; simpl; [discriminate|].
  destruct (cell (headerAt headers i) v vars) as [vars'|e] eqn:Hcell.
  - intros (j & w & vars'' & Hj & Hw)%IH.
    exists (S j), w, vars''. split; [exact Hj|].
    replace (i + S j) with (S i + j) by lia. exact Hw.
  - intros [= <-]. exists 0, v, vars. split; [reflexivity|].
    rewrite Nat.add_0_r. exact Hcell.
Qed.

Lemma readLoop_error_source (r : Reader) :
  forall n headers location records result err,
    n <> 0 ->
    readLoop zero cell set_RecordedTime timeFormat r n headers location records
    = (result, Some err) ->
    Failed err ∈ r
    \/ (exists record j v vars,
          Fields record ∈ r /\ record !! j = Some v
          /\ cell (headerAt headers j) v vars = inr err)
    \/ (exists record date timeStr rec e,
          Fields record ∈ r
          /\ rangeCells cell headers 0 record ("", "", zero)
             = inl (date, timeStr, rec)
          /\ parseDateTime date
               (if String.eqb timeStr "" then "00:00 AM" else timeStr) location
             = inr e
          /\ err = Errorf timeFormat [Err e]).
Proof.
  induction r as [|[record|e] r IH];
    intros n headers location records result err Hn Hrun.
  - simpl in Hrun. congruence.
  - rewrite readLoop_row in Hrun by done.
    destruct (decodeRow zero cell set_RecordedTime timeFormat headers location
                record) as [rec|e] eqn:Hrow.
    + rewrite readLoop_location in Hrun by lia.
      destruct (IH _ _ _ _ _ _ (Nat.neq_succ_0 n) Hrun)
        as [Hin|[(record0 & j & v & vars & Hin & Hv & Hcell)
                |(record0 & date & timeStr & rec0 & e & Hin & Hcells & Htime & ->)]].
      * left. by right.
      * right; left. exists record0, j, v, vars. split; [by right | done].
      * right; right. exists record0, date, timeStr, rec0, e.
        split; [by right | done].
    + injection Hrun as _ <-. unfold decodeRow in Hrow.
      destruct (rangeCells cell headers 0 record ("", "", zero))
        as [[[date timeStr] rec]|e0] eqn:Hcells.
      * rewrite parseDateTime_location in Hrow.
        destruct (parseDateTime date _ location) as [t|e1] eqn:Htime;
          [discriminate|].
        injection Hrow as <-. right; right.
        exists record, date, timeStr, rec, e1. split; [by left | done].
      * injection Hrow as <-. right; left.
        apply rangeCells_error in Hcells as (j & v & vars & Hv & Hcell).
        exists record, j, v, vars. split; [by left | done].
  - simpl in Hrun. injection Hrun as _ <-. left. by left.
Qed.

Lemma parseExport_error_source (r : Reader) (location : option Location)
    (result : list R) (err : error) :
  parseExport zero cell set_RecordedTime timeFormat r location
  = (result, Some err) ->
  Failed err ∈ r
  \/ (exists header rest record j v vars,
        r = Fields header :: rest /\ Fields record ∈ rest
        /\ record !! j = Some v
        /\ cell (headerAt (indexHeaders 0 header ∅) j) v vars = inr err)
  \/ (exists header rest record date timeStr rec e,
        r = Fields header :: rest /\ Fields record ∈ rest
        /\ rangeCells cell (indexHeaders 0 header ∅) 0 record ("", "", zero)
           = inl (date, timeStr, rec)
        /\ parseDateTime date
             (if String.eqb timeStr "" then "00:00 AM" else timeStr) location
           = inr e
        /\ err = Errorf timeFormat [Err e]).
Proof.
  destruct r as [|[header|e] rest].
  - intros Hrun. vm_compute in Hrun. congruence.
  - rewrite parseExport_header. intros Hrun.
    destruct (readLoop_error_source rest 1 _ _ _ _ _ (Nat.neq_succ_0 0) Hrun)
      as [Hin|[(record & j & v & vars & Hin & Hv & Hcell)
              |(record & date & timeStr & rec & e & Hin & Hcells & Htime & ->)]].
    + left. by right.
    + right; left. exists header, rest, record, j, v, vars. done.
    + right; right. exists header, rest, record, date, timeStr, rec, e. done.
  - intros Hrun. injection Hrun as _ <-. left. by left.
Qed.

(** What the cells of a record leave of a column: a property [Q] that the
    case of [columnName] sets up from its cell and that the other cases
    keep holds, after the cells, of the last cell under that column. *)
Lemma rangeCells_tracks (columnName : string)
    (Q : option string -> string * string * R -> Prop) :
  (forall v vars vars', cell columnName v vars = inl vars' -> Q (Some v) vars') ->
  (forall name v vars vars' o,
     name <> columnName -> cell name v vars = inl vars' -> Q o vars -> Q o vars') ->
  forall headers record i vars vars' o,
    Q o vars ->
    rangeCells cell headers i record vars = inl vars' ->
    Q (match lastCell headers columnName i record with
       | Some w => Some w
       | None => o
       end) vars'.
Proof.
  intros Hset Hkeep headers.
  induction record as [|v record IH]; intros i vars vars' o HQ; simpl.
  - intros [= <-]. exact HQ.
  - destruct (cell (headerAt headers i) v vars) as [vars1|e] eqn:Hcell;
      [|discriminate].
    intros Hrest.
    destruct (String.eqb_spec (headerAt headers i) columnName) as [Heq|Hne].
    + rewrite Heq in Hcell.
      pose proof (IH (S i) vars1 vars' (Some v) (Hset _ _ _ Hcell) Hrest) as H.
      destruct (lastCell headers columnName (S i) record); exact H.
    + pose proof (IH (S i) vars1 vars' o (Hkeep _ _ _ _ _ Hne Hcell HQ) Hrest) as H.
      destruct (lastCell headers columnName (S i) record); exact H.
Qed.

(** A row that decodes: its cells, then its timestamp. *)
Lemma decodeRow_inl (headers : gmap nat string) (location : option Location)
    (record : list string) (rec : R) :
  decodeRow zero cell set_RecordedTime timeFormat headers location record = inl rec ->
  exists date timeStr rec0 t,
    rangeCells cell headers 0 record ("", "", zero) = inl (date, timeStr, rec0)
    /\ parseDateTime date (if String.eqb timeStr "" then "00:00 AM" else timeStr)
         location = inl t
    /\ rec = set_RecordedTime t rec0.
Proof.
  unfold decodeRow.
  destruct (rangeCells cell headers 0 record ("", "", zero))
    as [[[date timeStr] rec0]|e]; [|discriminate].
  destruct (parseDateTime _ _ _) as [t|e] eqn:Htime; [|discriminate].
  intros [= <-]. exists date, timeStr, rec0, t.
  split; [reflexivity|]. split; [|reflexivity].
  rewrite <- Htime. unfold parseDateTime. destruct location; reflexivity.
Qed.

End ExportMore.

(** ** What a record holds of its row *)

Lemma NoDup_map_inj {A B : Type} (g : A -> B) (l : list A) (x y : A) :
  NoDup (map g l) -> x ∈ l -> y ∈ l -> g x = g y -> x = y.
Proof.
  induction l as [|a l IH]; simpl; intros Hnd Hx Hy Hg.
  - by apply elem_of_nil in Hx.
  - apply NoDup_cons in Hnd as [Ha Hnd].
    apply elem_of_cons in Hx as [->|Hx]; apply elem_of_cons in Hy as [->|Hy].
    + reflexivity.
    + exfalso. apply Ha. rewrite Hg. apply list_elem_of_In, in_map.
      by apply list_elem_of_In.
    + exfalso. apply Ha. rewrite <- Hg. apply list_elem_of_In, in_map.
      by apply list_elem_of_In.
    + by apply IH.
Qed.

#[local] Instance nutrientField_eq_decision : EqDecision nutrientField :=
  nutrientField_eq_dec.

(** No two cases of the servings switch have the same column name, and no
    two of them write the same field. *)
Lemma nutrientColumns_NoDup :
  NoDup (map fst nutrientColumns)
  /\ NoDup (map (fun entry : string * (nutrientField * string) => entry.2.1)
              nutrientColumns).
Proof. split; apply (bool_decide_unpack _); vm_compute; reflexivity. Qed.

Lemma nutrientColumn_elem (columnName : string) (target : nutrientField * string) :
  (columnName, target) ∈ nutrientColumns ->
  nutrientColumn nutrientColumns columnName = Some target.
Proof.
  intros Hin.
  destruct (nutrientColumn nutrientColumns columnName) as [target'|] eqn:Hcol.
  - apply nutrientColumn_Some in Hcol.
    pose proof (NoDup_map_inj fst nutrientColumns _ _
                  (proj1 nutrientColumns_NoDup) Hin Hcol eq_refl) as Heq.
    congruence.
  - exfalso.
    assert (columnName ∈ map fst nutrientColumns) as Hname
      by (apply list_elem_of_In, (in_map fst _ (columnName, target));
          by apply list_elem_of_In).
    clear Hin. revert Hcol Hname. generalize nutrientColumns.
    induction l as [|[name t] l IH]; simpl; intros Hcol Hname.
    + by apply elem_of_nil in Hname.
    + destruct (String.eqb_spec columnName name); [discriminate|].
      apply elem_of_cons in Hname as [->|Hname]; [done|]. by apply IH.
Qed.

Lemma nutrientColumn_field_inj (c1 c2 n1 n2 : string) (field : nutrientField) :
  nutrientColumn nutrientColumns c1 = Some (field, n1) ->
  nutrientColumn nutrientColumns c2 = Some (field, n2) ->
  c1 = c2.
Proof.
  intros H1%nutrientColumn_Some H2%nutrientColumn_Some.
  pose proof (NoDup_map_inj _ nutrientColumns _ _
                (proj2 nutrientColumns_NoDup) H1 H2 eq_refl) as Heq.
  congruence.
Qed.

Lemma nutrientField_beq_false (f1 f2 : nutrientField) :
  f1 <> f2 -> nutrientField_beq f1 f2 = false.
Proof.
  intros Hne. destruct (nutrientField_beq f1 f2) eqn:Hb; [|reflexivity].
  apply internal_nutrientField_dec_bl in Hb. done.
Qed.

Section SwitchCases.
Variable atof : string -> Z -> float64 + strconvErr.

(** What a case of the servings switch that returns no error has done. *)
Lemma servingCell_inl (columnName v date timeStr date' timeStr' : string)
    (serving serving' : ServingRecord.t) :
  servingCell atof columnName v (date, timeStr, serving)
  = inl (date', timeStr', serving') ->
  (columnName = "Day" /\ date' = v /\ timeStr' = timeStr /\ serving' = serving)
  \/ (columnName = "Time" /\ date' = date /\ timeStr' = v /\ serving' = serving)
  \/ (date' = date /\ timeStr' = timeStr /\
      ((columnName = "Group" /\ serving' = ServingRecord.set_Group v serving)
       \/ (columnName = "Food Name"
           /\ serving' = ServingRecord.set_FoodName v serving)
       \/ (columnName = "Amount" /\
           exists part0 part1 f,
             cutAt " " v = Some (part0, part1)
             /\ parseFloat atof part0 64 = inl f
             /\ serving' = ServingRecord.set_QuantityUnits part1
                             (ServingRecord.set_QuantityValue f serving))
       \/ (exists field nutrient f,
             nutrientColumn nutrientColumns columnName = Some (field, nutrient)
             /\ parseFloat atof v 64 = inl f
             /\ serving' = ServingRecord.set_Nutrient field f serving)
       \/ (columnName = "Category"
           /\ serving' = ServingRecord.set_Category v serving)
       \/ ((columnName ∉ servingColumns) /\ serving' = serving))).
Proof.
  unfold servingCell.
  destruct (String.eqb_spec columnName "Day") as [->|HDay];
    [intros [= <- <- <-]; left; done|].
  destruct (String.eqb_spec columnName "Time") as [->|HTime];
    [intros [= <- <- <-]; right; left; done|].
  destruct (String.eqb_spec columnName "Group") as [->|HGroup];
    [intros [= <- <- <-]; right; right; split; [done|]; split; [done|];
     left; done|].
  destruct (String.eqb_spec columnName "Food Name") as [->|HFood];
    [intros [= <- <- <-]; right; right; split; [done|]; split; [done|];
     right; left; done|].
  destruct (String.eqb_spec columnName "Amount") as [->|HAmount].
  { unfold strings_SplitN2.
    destruct (cutAt " " v) as [[part0 part1]|]; [|discriminate].
    destruct (parseFloat atof part0 64) as [f|] eqn:Hf; [|discriminate].
    intros [= <- <- <-]. right; right. split; [done|]. split; [done|].
    right; right; left. split; [done|]. exists part0, part1, f. done. }
  destruct (nutrientColumn nutrientColumns columnName) as [[field nutrient]|]
    eqn:Hcol.
  { unfold parseNutrientFloat.
    destruct (parseFloat atof v 64) as [f|] eqn:Hf; [|discriminate].
    intros [= <- <- <-]. right; right. split; [done|]. split; [done|].
    right; right; right; left. exists field, nutrient, f. done. }
  destruct (String.eqb_spec columnName "Category") as [->|HCategory];
    [intros [= <- <- <-]; right; right; split; [done|]; split; [done|];
     right; right; right; right; left; done|].
  intros [= <- <- <-]. right; right. split; [done|]. split; [done|].
  right; right; right; right; right. split; [|done].
  unfold servingColumns. intros Hin.
  apply elem_of_app in Hin as [Hin|Hin].
  { repeat (apply elem_of_cons in Hin as [Hin|Hin]; [done|]).
    by apply elem_of_nil in Hin. }
  apply elem_of_app in Hin as [Hin|Hin].
  - apply list_elem_of_In, in_map_iff in Hin as ([name target] & Hname & Hin).
    simpl in Hname. subst name. apply list_elem_of_In in Hin.
    apply nutrientColumn_elem in Hin. congruence.
  - apply elem_of_cons in Hin as [Hin|Hin]; [done|]. by apply elem_of_nil in Hin.
Qed.

Lemma exerciseCell_inl (columnName v date timeStr date' timeStr' : string)
    (exercise exercise' : ExerciseRecord.t) :
  exerciseCell atof columnName v (date, timeStr, exercise)
  = inl (date', timeStr', exercise') ->
  (columnName = "Day" /\ date' = v /\ timeStr' = timeStr /\ exercise' = exercise)
  \/ (columnName = "Time" /\ date' = date /\ timeStr' = v /\ exercise' = exercise)
  \/ (date' = date /\ timeStr' = timeStr /\
      ((columnName = "Exercise"
        /\ exercise' = ExerciseRecord.set_Exercise v exercise)
       \/ (columnName = "Minutes" /\
           exists f, parseFloat atof v 64 = inl f
                     /\ exercise' = ExerciseRecord.set_Minutes f exercise)
       \/ (columnName = "Calories Burned" /\
           exists f, parseFloat atof v 64 = inl f
                     /\ exercise' = ExerciseRecord.set_CaloriesBurned f exercise)
       \/ ((columnName ∉ exerciseColumns) /\ exercise' = exercise))).
Proof.
  unfold exerciseCell.
  destruct (String.eqb_spec columnName "Day") as [->|HDay];
    [intros [= <- <- <-]; left; done|].
  destruct (String.eqb_spec columnName "Time") as [->|HTime];
    [intros [= <- <- <-]; right; left; done|].
  destruct (String.eqb_spec columnName "Exercise") as [->|HExercise];
    [intros [= <- <- <-]; right; right; split; [done|]; split; [done|];
     left; done|].
  destruct (String.eqb_spec columnName "Minutes") as [->|HMinutes].
  { destruct (parseFloat atof v 64) as [f|] eqn:Hf; [|discriminate].
    intros [= <- <- <-]. right; right. split; [done|]. split; [done|].
    right; left. split; [done|]. exists f. done. }
  destruct (String.eqb_spec columnName "Calories Burned") as [->|HCalories].
  { destruct (parseFloat atof v 64) as [f|] eqn:Hf; [|discriminate].
    intros [= <- <- <-]. right; right. split; [done|]. split; [done|].
    right; right; left. split; [done|]. exists f. done. }
  intros [= <- <- <-]. right; right. split; [done|]. split; [done|].
  right; right; right. split; [|done].
  unfold exerciseColumns. intros Hin.
  repeat (apply elem_of_cons in Hin as [Hin|Hin]; [done|]).
  by apply elem_of_nil in Hin.
Qed.

Lemma biometricCell_inl (columnName v date timeStr date' timeStr' : string)
    (bioRecord bioRecord' : BiometricRecord.t) :
  biometricCell atof columnName v (date, timeStr, bioRecord)
  = inl (date', timeStr', bioRecord') ->
  (columnName = "Day" /\ date' = v /\ timeStr' = timeStr /\ bioRecord' = bioRecord)
  \/ (columnName = "Time" /\ date' = date /\ timeStr' = v /\ bioRecord' = bioRecord)
  \/ (date' = date /\ timeStr' = timeStr /\
      ((columnName = "Metric"
        /\ bioRecord' = BiometricRecord.set_Metric v bioRecord)
       \/ (columnName = "Unit"
           /\ bioRecord' = BiometricRecord.set_Unit v bioRecord)
       \/ (columnName = "Amount" /\ strings_Contains v "/" = true
           /\ bioRecord' = bioRecord)
       \/ (columnName = "Amount" /\ strings_Contains v "/" = false /\
           exists f, parseFloat atof v 64 = inl f
                     /\ bioRecord' = BiometricRecord.set_Amount f bioRecord)
       \/ ((columnName ∉ biometricColumns) /\ bioRecord' = bioRecord))).
Proof.
  unfold biometricCell.
  destruct (String.eqb_spec columnName "Day") as [->|HDay];
    [intros [= <- <- <-]; left; done|].
  destruct (String.eqb_spec columnName "Time") as [->|HTime];
    [intros [= <- <- <-]; right; left; done|].
  destruct (String.eqb_spec columnName "Metric") as [->|HMetric];
    [intros [= <- <- <-]; right; right; split; [done|]; split; [done|];
     left; done|].
  destruct (String.eqb_spec columnName "Unit") as [->|HUnit];
    [intros [= <- <- <-]; right; right; split; [done|]; split; [done|];
     right; left; done|].
  destruct (String.eqb_spec columnName "Amount") as [->|HAmount].
  { destruct (strings_Contains v "/") eqn:Hslash; simpl.
    - intros [= <- <- <-]. right; right. split; [done|]. split; [done|].
      right; right; left. done.
    - destruct (parseFloat atof v 64) as [f|] eqn:Hf; [|discriminate].
      intros [= <- <- <-]. right; right. split; [done|]. split; [done|].
      right; right; right; left. split; [done|]. split; [done|]. exists f. done. }
  intros [= <- <- <-]. right; right. split; [done|]. split; [done|].
  right; right; right; right. split; [|done].
  unfold biometricColumns. intros Hin.
  repeat (apply elem_of_cons in Hin as [Hin|Hin]; [done|]).
  by apply elem_of_nil in Hin.
Qed.

End SwitchCases.

(** The two facts [rangeCells_tracks] asks of a switch, from what its
    cases do. *)
Ltac solve_cell inv :=
  intros;
  repeat match goal with vars : (_ * _)%type |- _ => destruct vars end;
  cbn [fst snd] in *;
  match goal with H : _ = inl _ |- _ => apply inv in H end;
  repeat match goal with
         | H : _ \/ _ |- _ => destruct H
         | H : _ /\ _ |- _ => destruct H
         | H : exists _, _ |- _ => destruct H
         end;
  simplify_eq; cbn [default] in *;
  first
    [ done
    | congruence
    | match goal with
      | H : nutrientColumn nutrientColumns _ = Some _ |- _ =>
          vm_compute in H; discriminate
      end
    | match goal with
      | H : _ ∉ _ |- _ => exfalso; apply H; elem_of_now
      end ].

(** [X1] A text field of a record is the cell under the last column of
    its name, as it stands, and the empty string when the row has no such
    column: Group, Food Name and Category of a serving, Exercise of an
    exercise, Metric and Unit of a biometric record, wherever the column
    stands among the others. *)
Theorem X1_text_field_is_last_cell
    (atof : string -> Z -> float64 + strconvErr) (f : family)
    (headers : gmap nat string) (location : option Location)
    (record : list string) (rec : recordOf f)
    (columnName : string) (get : recordOf f -> string)
    (Hfield : (columnName, get) ∈ textFieldsOf f)
    (Hrow : decodeRowOf atof f headers location record = inl rec) :
  get rec = default "" (lastCell headers columnName 0 record).
Proof.
  destruct f; simpl in Hfield, Hrow, rec, get |- *;
    apply decodeRow_inl in Hrow as (date & timeStr & rec0 & t & Hcells & _ & ->);
    repeat (apply elem_of_cons in Hfield as [Hfield|Hfield];
            [injection Hfield as -> ->|]);
    try (by apply elem_of_nil in Hfield).
  - unshelve epose proof (rangeCells_tracks (servingCell atof) "Group"
              (fun o vars => ServingRecord.Group vars.2 = default "" o)
              _ _ headers record 0 ("", "", ServingRecord.zero) _ None eq_refl Hcells)
      as Htrack; try solve_cell (servingCell_inl atof).
    destruct (lastCell headers _ 0 record); exact Htrack.
  - unshelve epose proof (rangeCells_tracks (servingCell atof) "Food Name"
              (fun o vars => ServingRecord.FoodName vars.2 = default "" o)
              _ _ headers record 0 ("", "", ServingRecord.zero) _ None eq_refl Hcells)
      as Htrack; try solve_cell (servingCell_inl atof).
    destruct (lastCell headers _ 0 record); exact Htrack.
  - unshelve epose proof (rangeCells_tracks (servingCell atof) "Category"
              (fun o vars => ServingRecord.Category vars.2 = default "" o)
              _ _ headers record 0 ("", "", ServingRecord.zero) _ None eq_refl Hcells)
      as Htrack; try solve_cell (servingCell_inl atof).
    destruct (lastCell headers _ 0 record); exact Htrack.
  - unshelve epose proof (rangeCells_tracks (exerciseCell atof) "Exercise"
              (fun o vars => ExerciseRecord.Exercise vars.2 = default "" o)
              _ _ headers record 0 ("", "", ExerciseRecord.zero) _ None eq_refl Hcells)
      as Htrack; try solve_cell (exerciseCell_inl atof).
    destruct (lastCell headers _ 0 record); exact Htrack.
  - unshelve epose proof (rangeCells_tracks (biometricCell atof) "Metric"
              (fun o vars => BiometricRecord.Metric vars.2 = default "" o)
              _ _ headers record 0 ("", "", BiometricRecord.zero) _ None eq_refl Hcells)
      as Htrack; try solve_cell (biometricCell_inl atof).
    destruct (lastCell headers _ 0 record); exact Htrack.
  - unshelve epose proof (rangeCells_tracks (biometricCell atof) "Unit"
              (fun o vars => BiometricRecord.Unit vars.2 = default "" o)
              _ _ headers record 0 ("", "", BiometricRecord.zero) _ None eq_refl Hcells)
      as Htrack; try solve_cell (biometricCell_inl atof).
    destruct (lastCell headers _ 0 record); exact Htrack.
Qed.

Lemma Nutrients_set_other (field field' : nutrientField) (x : float64)
    (serving : ServingRecord.t) :
  field' <> field ->
  ServingRecord.Nutrients (ServingRecord.set_Nutrient field' x serving) field
  = ServingRecord.Nutrients serving field.
Proof.
  intros Hne. simpl. rewrite nutrientField_beq_false by done. reflexivity.
Qed.

Lemma Nutrients_set_same (field : nutrientField) (x : float64)
    (serving : ServingRecord.t) :
  ServingRecord.Nutrients (ServingRecord.set_Nutrient field x serving) field = x.
Proof. simpl. rewrite nutrientField_beq_refl. reflexivity. Qed.

Lemma nutrientColumn_in_servingColumns (columnName : string)
    (target : nutrientField * string) :
  nutrientColumn nutrientColumns columnName = Some target ->
  columnName ∈ servingColumns.
Proof.
  intros Hin%nutrientColumn_Some. unfold servingColumns.
  apply elem_of_app. right. apply elem_of_app. left.
  apply list_elem_of_In, (in_map fst _ (columnName, target)).
  by apply list_elem_of_In.
Qed.

(** [X2] A nutrient field of a serving is the number that the cell under
    the last column of that nutrient converts to (0 for an empty cell),
    and 0 when the row has no such column: no other column of the export
    writes the field. *)
Theorem X2_nutrient_field_is_last_cell
    (atof : string -> Z -> float64 + strconvErr)
    (headers : gmap nat string) (location : option Location)
    (record : list string) (rec : ServingRecord.t)
    (columnName nutrient : string) (field : nutrientField)
    (Hcol : nutrientColumn nutrientColumns columnName = Some (field, nutrient))
    (Hrow : decodeRowOf atof Servings headers location record = inl rec) :
  match lastCell headers columnName 0 record with
  | None => ServingRecord.Nutrients rec field = 0%float
  | Some v => parseFloat atof v 64 = inl (ServingRecord.Nutrients rec field)
  end.
Proof.
  simpl in Hrow.
  apply decodeRow_inl in Hrow as (date & timeStr & rec0 & t & Hcells & _ & ->).
  unshelve epose proof
    (rangeCells_tracks (servingCell atof) columnName
       (fun o vars =>
          match o with
          | None => ServingRecord.Nutrients vars.2 field = 0%float
          | Some v => parseFloat atof v 64 = inl (ServingRecord.Nutrients vars.2 field)
          end)
       _ _ headers record 0 ("", "", ServingRecord.zero) _ None eq_refl Hcells)
    as Htrack.
  - intros v [[d ti] r] [[d' ti'] r'] Hcell. cbn [snd].
    apply servingCell_inl in Hcell.
    repeat match goal with
           | H : _ \/ _ |- _ => destruct H
           | H : _ /\ _ |- _ => destruct H
           | H : exists _, _ |- _ => destruct H
           end; subst;
      try (vm_compute in Hcol; discriminate).
    + rewrite Hcol in *. simplify_eq. rewrite Nutrients_set_same. done.
    + exfalso. eauto using nutrientColumn_in_servingColumns.
  - intros name v [[d ti] r] [[d' ti'] r'] o Hne Hcell Hq. cbn [snd] in *.
    apply servingCell_inl in Hcell.
    repeat match goal with
           | H : _ \/ _ |- _ => destruct H
           | H : _ /\ _ |- _ => destruct H
           | H : exists _, _ |- _ => destruct H
           end; subst; try exact Hq.
    match goal with
    | H : nutrientColumn nutrientColumns name = Some (?field', _) |- _ =>
        assert (field' <> field) as Hfield
          by (intros ->; apply Hne; eapply nutrientColumn_field_inj; eauto)
    end.
    rewrite Nutrients_set_other by done. exact Hq.
  - cbn [snd] in Htrack.
    destruct (lastCell headers columnName 0 record); exact Htrack.
Qed.

(** [X3] The minutes and the calories of an exercise are the numbers that
    the cells under the last columns [Minutes] and [Calories Burned]
    convert to, and 0 when the row has no such column. *)
Theorem X3_exercise_numbers_are_last_cells
    (atof : string -> Z -> float64 + strconvErr)
    (headers : gmap nat string) (location : option Location)
    (record : list string) (rec : ExerciseRecord.t)
    (Hrow : decodeRowOf atof Exercises headers location record = inl rec) :
  match lastCell headers "Minutes" 0 record with
  | None => ExerciseRecord.Minutes rec = 0%float
  | Some v => parseFloat atof v 64 = inl (ExerciseRecord.Minutes rec)
  end
  /\ match lastCell headers "Calories Burned" 0 record with
     | None => ExerciseRecord.CaloriesBurned rec = 0%float
     | Some v => parseFloat atof v 64 = inl (ExerciseRecord.CaloriesBurned rec)
     end.
Proof.
  simpl in Hrow.
  apply decodeRow_inl in Hrow as (date & timeStr & rec0 & t & Hcells & _ & ->).
  split.
  - unshelve epose proof
      (rangeCells_tracks (exerciseCell atof) "Minutes"
         (fun o vars =>
            match o with
            | None => ExerciseRecord.Minutes vars.2 = 0%float
            | Some v => parseFloat atof v 64 = inl (ExerciseRecord.Minutes vars.2)
            end)
         _ _ headers record 0 ("", "", ExerciseRecord.zero) _ None eq_refl Hcells)
      as Htrack; try solve_cell (exerciseCell_inl atof).
    cbn [snd] in Htrack. destruct (lastCell headers _ 0 record); exact Htrack.
  - unshelve epose proof
      (rangeCells_tracks (exerciseCell atof) "Calories Burned"
         (fun o vars =>
            match o with
            | None => ExerciseRecord.CaloriesBurned vars.2 = 0%float
            | Some v =>
                parseFloat atof v 64 = inl (ExerciseRecord.CaloriesBurned vars.2)
            end)
         _ _ headers record 0 ("", "", ExerciseRecord.zero) _ None eq_refl Hcells)
      as Htrack; try solve_cell (exerciseCell_inl atof).
    cbn [snd] in Htrack. destruct (lastCell headers _ 0 record); exact Htrack.
Qed.

(** [X4] The quantity of a serving comes from the cell under the last
    column [Amount]: the unit is the text after the first space of that
    cell and the value is what the text before it converts to; a row
    without such a column has the value 0 and no unit. *)
Theorem X4_serving_quantity_is_last_amount
    (atof : string -> Z -> float64 + strconvErr)
    (headers : gmap nat string) (location : option Location)
    (record : list string) (rec : ServingRecord.t)
    (Hrow : decodeRowOf atof Servings headers location record = inl rec) :
  match lastCell headers "Amount" 0 record with
  | None =>
      ServingRecord.QuantityValue rec = 0%float
      /\ ServingRecord.QuantityUnits rec = ""
  | Some v =>
      exists part0,
        cutAt " " v = Some (part0, ServingRecord.QuantityUnits rec)
        /\ parseFloat atof part0 64 = inl (ServingRecord.QuantityValue rec)
  end.
Proof.
  simpl in Hrow.
  apply decodeRow_inl in Hrow as (date & timeStr & rec0 & t & Hcells & _ & ->).
  unshelve epose proof
    (rangeCells_tracks (servingCell atof) "Amount"
       (fun o vars =>
          match o with
          | None =>
              ServingRecord.QuantityValue vars.2 = 0%float
              /\ ServingRecord.QuantityUnits vars.2 = ""
          | Some v =>
              exists part0,
                cutAt " " v = Some (part0, ServingRecord.QuantityUnits vars.2)
                /\ parseFloat atof part0 64
                   = inl (ServingRecord.QuantityValue vars.2)
          end)
       _ _ headers record 0 ("", "", ServingRecord.zero) _ None
       (conj eq_refl eq_refl) Hcells)
    as Htrack.
  - intros v [[d ti] r] [[d' ti'] r'] Hcell. cbn [snd].
    apply servingCell_inl in Hcell.
    repeat match goal with
           | H : _ \/ _ |- _ => destruct H
           | H : _ /\ _ |- _ => destruct H
           | H : exists _, _ |- _ => destruct H
           end; simplify_eq;
      first
        [ eexists; split; [eassumption | assumption]
        | match goal with
          | H : nutrientColumn nutrientColumns _ = Some _ |- _ =>
              vm_compute in H; discriminate
          end
        | match goal with H : _ ∉ _ |- _ => exfalso; apply H; elem_of_now end ].
  - intros name v [[d ti] r] [[d' ti'] r'] o Hne Hcell Hq. cbn [snd] in *.
    apply servingCell_inl in Hcell.
    repeat match goal with
           | H : _ \/ _ |- _ => destruct H
           | H : _ /\ _ |- _ => destruct H
           | H : exists _, _ |- _ => destruct H
           end; subst; first [exact Hq | done].
  - cbn [snd] in Htrack.
    destruct (lastCell headers "Amount" 0 record); exact Htrack.
Qed.

(** ** The timestamp of a record *)

(** [X5] The timestamp of a record is read from the cells under the last
    column [Day] and the last column [Time] of its row, wherever the two
    stand in the row: it is what [parseDateTime] gives for them in the
    location of the call. *)
Theorem X5_timestamp_from_last_day_and_time
    (atof : string -> Z -> float64 + strconvErr) (f : family)
    (headers : gmap nat string) (location : option Location)
    (record : list string) (rec : recordOf f)
    (Hrow : decodeRowOf atof f headers location record = inl rec) :
  parseDateTime (default "" (lastCell headers "Day" 0 record))
    (if String.eqb (default "" (lastCell headers "Time" 0 record)) ""
     then "00:00 AM" else default "" (lastCell headers "Time" 0 record))
    location
  = inl (recordedTimeOf f rec).
Proof.
  destruct f; simpl in Hrow, rec |- *;
    apply decodeRow_inl in Hrow as (date & timeStr & rec0 & t & Hcells & Htime & ->).
  - unshelve epose proof
      (rangeCells_tracks (servingCell atof) "Day"
         (fun o vars => vars.1.1 = default "" o)
         _ _ headers record 0 ("", "", ServingRecord.zero) _ None eq_refl Hcells)
      as Hday; try solve_cell (servingCell_inl atof).
    unshelve epose proof
      (rangeCells_tracks (servingCell atof) "Time"
         (fun o vars => vars.1.2 = default "" o)
         _ _ headers record 0 ("", "", ServingRecord.zero) _ None eq_refl Hcells)
      as Htm; try solve_cell (servingCell_inl atof).
    cbn [fst snd] in Hday, Htm.
    destruct (lastCell headers "Day" 0 record), (lastCell headers "Time" 0 record);
      cbn [default] in *; subst; exact Htime.
  - unshelve epose proof
      (rangeCells_tracks (exerciseCell atof) "Day"
         (fun o vars => vars.1.1 = default "" o)
         _ _ headers record 0 ("", "", ExerciseRecord.zero) _ None eq_refl Hcells)
      as Hday; try solve_cell (exerciseCell_inl atof).
    unshelve epose proof
      (rangeCells_tracks (exerciseCell atof) "Time"
         (fun o vars => vars.1.2 = default "" o)
         _ _ headers record 0 ("", "", ExerciseRecord.zero) _ None eq_refl Hcells)
      as Htm; try solve_cell (exerciseCell_inl atof).
    cbn [fst snd] in Hday, Htm.
    destruct (lastCell headers "Day" 0 record), (lastCell headers "Time" 0 record);
      cbn [default] in *; subst; exact Htime.
  - unshelve epose proof
      (rangeCells_tracks (biometricCell atof) "Day"
         (fun o vars => vars.1.1 = default "" o)
         _ _ headers record 0 ("", "", BiometricRecord.zero) _ None eq_refl Hcells)
      as Hday; try solve_cell (biometricCell_inl atof).
    unshelve epose proof
      (rangeCells_tracks (biometricCell atof) "Time"
         (fun o vars => vars.1.2 = default "" o)
         _ _ headers record 0 ("", "", BiometricRecord.zero) _ None eq_refl Hcells)
      as Htm; try solve_cell (biometricCell_inl atof).
    cbn [fst snd] in Hday, Htm.
    destruct (lastCell headers "Day" 0 record), (lastCell headers "Time" 0 record);
      cbn [default] in *; subst; exact Htime.
Qed.

Lemma time_ParseInLocation_Loc (value : string) (loc : Location) (t : Time) :
  time_ParseInLocation value loc = inl t -> Loc t = loc.
Proof.
  unfold time_ParseInLocation.
  repeat case_match; intros [= <-]; reflexivity.
Qed.

Lemma parseDateTime_Loc (date timeStr : string) (location : option Location)
    (t : Time) :
  parseDateTime date timeStr location = inl t -> Loc t = default UTC location.
Proof.
  unfold parseDateTime.
  destruct (time_ParseInLocation _ _) as [t0|e] eqn:Hparse; [|discriminate].
  intros [= <-]. apply time_ParseInLocation_Loc in Hparse.
  destruct location; exact Hparse.
Qed.

Lemma Forall2_Forall_right {A B : Type} (P : A -> B -> Prop) (Q : B -> Prop)
    (l : list A) (k : list B) :
  (forall x y, P x y -> Q y) -> Forall2 P l k -> Forall Q k.
Proof. intros HPQ. induction 1; constructor; eauto. Qed.

(** [X6] Every record a call returns has its time in the location of the
    call, in UTC when that is nil: the location the call hands to
    [time.ParseInLocation] for every row. *)
Theorem X6_records_are_in_the_location_of_the_call
    (atof : string -> Z -> float64 + strconvErr) (f : family) (r : Reader)
    (location : option Location) (records : list (recordOf f))
    (Hok : Parse atof f r location = (records, None)) :
  Forall (fun rec => Loc (recordedTimeOf f rec) = default UTC location) records.
Proof.
  destruct f; simpl in Hok, records |- *;
    apply parseExport_success in Hok as [_ [[_ ->]|(header & rows & _ & Hall)]];
    try apply Forall_nil_2;
    (eapply Forall2_Forall_right; [|exact Hall]);
    intros row rec (date & timeStr & rec0 & t & _ & Htime & ->)%decodeRow_inl;
    apply parseDateTime_Loc in Htime; exact Htime.
Qed.

(** ** The rows of a call *)

(** [X7] A nil location is UTC for the whole call: the two calls return
    the same records and the same error. *)
Theorem X7_nil_location_is_UTC
    (atof : string -> Z -> float64 + strconvErr) (f : family) (r : Reader) :
  Parse atof f r None = Parse atof f r (Some UTC).
Proof. destruct f; apply parseExport_nil_location. Qed.

(** [X8] A call that fails does not depend on what the input holds after
    the failure: with more reads after those it made, it returns the same
    error. *)
Theorem X8_failure_ignores_rest_of_input
    (atof : string -> Z -> float64 + strconvErr) (f : family) (r r' : Reader)
    (location : option Location) (result : list (recordOf f)) (err : error)
    (Hfail : Parse atof f r location = (result, Some err)) :
  Parse atof f (r ++ r') location = (result, Some err).
Proof.
  destruct f; simpl in Hfail, result |- *; apply readLoop_error_stable, Hfail.
Qed.

(** [X9] A call succeeds when every row after the header decodes, and it
    returns the records of the rows in their order. *)
Theorem X9_rows_that_decode_are_returned
    (atof : string -> Z -> float64 + strconvErr) (f : family)
    (header : list string) (rows : list (list string))
    (location : option Location) (records : list (recordOf f))
    (Hrows : Forall2 (fun row rec =>
                        decodeRowOf atof f (indexHeaders 0 header ∅) location row
                        = inl rec) rows records) :
  Parse atof f (Fields header :: map Fields rows) location = (records, None).
Proof.
  destruct f; simpl in Hrows, records |- *; apply parseExport_rows_ok, Hrows.
Qed.

(** [X10] After rows that decode, the first row that does not decode, or
    the first read that fails, is the result of the call: its error comes
    back as it is, with no record, whatever follows. *)
Theorem X10_first_failure_is_the_result
    (atof : string -> Z -> float64 + strconvErr) (f : family)
    (header : list string) (rows : list (list string))
    (location : option Location) (records : list (recordOf f)) (r : Reader)
    (Hrows : Forall2 (fun row rec =>
                        decodeRowOf atof f (indexHeaders 0 header ∅) location row
                        = inl rec) rows records) :
  (forall row err,
     decodeRowOf atof f (indexHeaders 0 header ∅) location row = inr err ->
     Parse atof f (Fields header :: map Fields rows ++ Fields row :: r) location
     = ([], Some err))
  /\ (forall err,
        Parse atof f (Fields header :: map Fields rows ++ Failed err :: r) location
        = ([], Some err)).
Proof.
  destruct f; simpl in Hrows, records |- *;
    eapply parseExport_first_failure, Hrows.
Qed.

(** [X11] Two exports with the same header that parse, parse when the
    rows of the second follow the rows of the first, to the records of
    the first followed by the records of the second. *)
Theorem X11_exports_concatenate
    (atof : string -> Z -> float64 + strconvErr) (f : family)
    (header : list string) (rows1 rows2 : list (list string))
    (location : option Location) (records1 records2 : list (recordOf f))
    (H1 : Parse atof f (Fields header :: map Fields rows1) location
          = (records1, None))
    (H2 : Parse atof f (Fields header :: map Fields rows2) location
          = (records2, None)) :
  Parse atof f (Fields header :: map Fields (rows1 ++ rows2)) location
  = (records1 ++ records2, None).
Proof.
  destruct f; simpl in H1, H2, records1, records2 |- *;
    eapply parseExport_concat; eassumption.
Qed.

(** ** The errors of a call *)

Lemma cutAt_None_no_space (s : string) :
  cutAt " " s = None -> strings_Contains s " " = false.
Proof.
  induction s as [|c rest IH]; [reflexivity|].
  rewrite Contains_space_cons. simpl.
  destruct (Ascii.eqb c " "); [discriminate|].
  destruct (cutAt " " rest) as [[before after]|]; [discriminate|].
  intros _. apply IH. reflexivity.
Qed.

Section SwitchErrors.
Variable atof : string -> Z -> float64 + strconvErr.

Lemma servingCell_inr (columnName v : string)
    (vars : string * string * ServingRecord.t) (err : error) :
  servingCell atof columnName v vars = inr err ->
  cellError atof Servings columnName v err.
Proof.
  destruct vars as [[date timeStr] serving]. unfold servingCell.
  repeat (destruct (String.eqb _ _); [discriminate|]).
  destruct (String.eqb_spec columnName "Amount") as [->|_].
  { unfold strings_SplitN2.
    destruct (cutAt " " v) as [[part0 part1]|] eqn:Hcut.
    - destruct (parseFloat atof part0 64) as [f|e] eqn:Hf; [discriminate|].
      intros [= <-].
      apply parseFloat_error_inv in Hf as (Hne & k & Hk & ->).
      by eapply quantity_error.
    - intros [= <-]. apply amount_format_error, cutAt_None_no_space, Hcut. }
  destruct (nutrientColumn nutrientColumns columnName) as [[field nutrient]|]
    eqn:Hcol.
  - unfold parseNutrientFloat.
    destruct (parseFloat atof v 64) as [f|e] eqn:Hf; [discriminate|].
    intros [= <-].
    apply parseFloat_error_inv in Hf as (Hne & k & Hk & ->).
    by eapply nutrient_error.
  - destruct (String.eqb columnName "Category"); discriminate.
Qed.

Lemma exerciseCell_inr (columnName v : string)
    (vars : string * string * ExerciseRecord.t) (err : error) :
  exerciseCell atof columnName v vars = inr err ->
  cellError atof Exercises columnName v err.
Proof.
  destruct vars as [[date timeStr] exercise]. unfold exerciseCell.
  repeat (destruct (String.eqb _ _); [discriminate|]).
  destruct (String.eqb_spec columnName "Minutes") as [->|_].
  { destruct (parseFloat atof v 64) as [f|e] eqn:Hf; [discriminate|].
    intros [= <-].
    apply parseFloat_error_inv in Hf as (Hne & k & Hk & ->).
    by apply minutes_error. }
  destruct (String.eqb_spec columnName "Calories Burned") as [->|_];
    [|discriminate].
  destruct (parseFloat atof v 64) as [f|e] eqn:Hf; [discriminate|].
  intros [= <-].
  apply parseFloat_error_inv in Hf as (Hne & k & Hk & ->).
  by apply calories_error.
Qed.

Lemma biometricCell_inr (columnName v : string)
    (vars : string * string * BiometricRecord.t) (err : error) :
  biometricCell atof columnName v vars = inr err ->
  cellError atof Biometrics columnName v err.
Proof.
  destruct vars as [[date timeStr] bioRecord]. unfold biometricCell.
  repeat (destruct (String.eqb _ _); [discriminate|]).
  destruct (String.eqb_spec columnName "Amount") as [->|_]; [|discriminate].
  destruct (strings_Contains v "/") eqn:Hslash; simpl; [discriminate|].
  destruct (parseFloat atof v 64) as [f|e] eqn:Hf; [discriminate|].
  intros [= <-].
  apply parseFloat_error_inv in Hf as (Hne & k & Hk & ->).
  by apply biometric_amount_error.
Qed.

(** The date and the time of day the cells of a row leave: the cells
    under the last [Day] and the last [Time] column. *)
Lemma rangeCells_day_time (f : family) (headers : gmap nat string)
    (record : list string) (date timeStr : string) (rec : recordOf f) :
  rangeCells (cellOf atof f) headers 0 record ("", "", zeroOf f)
  = inl (date, timeStr, rec) ->
  date = default "" (lastCell headers "Day" 0 record)
  /\ timeStr = default "" (lastCell headers "Time" 0 record).
Proof.
  intros Hcells. destruct f; simpl in Hcells, rec.
  - unshelve epose proof
      (rangeCells_tracks (servingCell atof) "Day"
         (fun o vars => vars.1.1 = default "" o)
         _ _ headers record 0 ("", "", ServingRecord.zero) _ None eq_refl Hcells)
      as Hday; try solve_cell (servingCell_inl atof).
    unshelve epose proof
      (rangeCells_tracks (servingCell atof) "Time"
         (fun o vars => vars.1.2 = default "" o)
         _ _ headers record 0 ("", "", ServingRecord.zero) _ None eq_refl Hcells)
      as Htm; try solve_cell (servingCell_inl atof).
    cbn [fst snd] in Hday, Htm.
    destruct (lastCell headers "Day" 0 record), (lastCell headers "Time" 0 record);
      cbn [default] in *; subst; done.
  - unshelve epose proof
      (rangeCells_tracks (exerciseCell atof) "Day"
         (fun o vars => vars.1.1 = default "" o)
         _ _ headers record 0 ("", "", ExerciseRecord.zero) _ None eq_refl Hcells)
      as Hday; try solve_cell (exerciseCell_inl atof).
    unshelve epose proof
      (rangeCells_tracks (exerciseCell atof) "Time"
         (fun o vars => vars.1.2 = default "" o)
         _ _ headers record 0 ("", "", ExerciseRecord.zero) _ None eq_refl Hcells)
      as Htm; try solve_cell (exerciseCell_inl atof).
    cbn [fst snd] in Hday, Htm.
    destruct (lastCell headers "Day" 0 record), (lastCell headers "Time" 0 record);
      cbn [default] in *; subst; done.
  - unshelve epose proof
      (rangeCells_tracks (biometricCell atof) "Day"
         (fun o vars => vars.1.1 = default "" o)
         _ _ headers record 0 ("", "", BiometricRecord.zero) _ None eq_refl Hcells)
      as Hday; try solve_cell (biometricCell_inl atof).
    unshelve epose proof
      (rangeCells_tracks (biometricCell atof) "Time"
         (fun o vars => vars.1.2 = default "" o)
         _ _ headers record 0 ("", "", BiometricRecord.zero) _ None eq_refl Hcells)
      as Htm; try solve_cell (biometricCell_inl atof).
    cbn [fst snd] in Hday, Htm.
    destruct (lastCell headers "Day" 0 record), (lastCell headers "Time" 0 record);
      cbn [default] in *; subst; done.
Qed.

(** The error of a timestamp that [parseDateTime] does not read. *)
Lemma timeError_of_parseDateTime (f : family) (day time : string)
    (location : option Location) (e : error) :
  parseDateTime day (if String.eqb time "" then "00:00 AM" else time) location
  = inr e ->
  timeError f day time (Errorf (timeFormatOf f) [Err e]).
Proof.
  intros Htime.
  apply parseDateTime_error in Htime as (le & ve & msg & ->);
    [|destruct (String.eqb_spec time ""); done].
  apply time_error.
Qed.

End SwitchErrors.

(** [X12] The errors of a call are of three kinds and no other.  The
    error of a read of the reader, returned as it is.  An error of the
    switch of the family for a cell of a data row, under the column of
    its position in the header: an amount cell of a serving without a
    space, with the cell; a quantity, a nutrient, the minutes, the
    calories or a biometric amount that does not convert, with the text
    that was converted.  The error of the timestamp of a data row, which
    carries the cells under the last [Day] and [Time] columns of the row
    put together, the time of day being [00:00 AM] when that cell is
    empty or missing. *)
Theorem X12_errors_of_a_call
    (atof : string -> Z -> float64 + strconvErr) (f : family) (r : Reader)
    (location : option Location) (result : list (recordOf f)) (err : error)
    (Hfail : Parse atof f r location = (result, Some err)) :
  Failed err ∈ r
  \/ (exists (header : list string) (rest : Reader) (record : list string)
        (i : nat) (v : string),
        r = Fields header :: rest /\ Fields record ∈ rest
        /\ record !! i = Some v
        /\ cellError atof f (headerAt (indexHeaders 0 header ∅) i) v err)
  \/ (exists (header : list string) (rest : Reader) (record : list string),
        r = Fields header :: rest /\ Fields record ∈ rest
        /\ timeError f
             (default "" (lastCell (indexHeaders 0 header ∅) "Day" 0 record))
             (default "" (lastCell (indexHeaders 0 header ∅) "Time" 0 record))
             err).
Proof.
  assert (forall header record date timeStr (rec : recordOf f) e,
            rangeCells (cellOf atof f) (indexHeaders 0 header ∅) 0 record
              ("", "", zeroOf f) = inl (date, timeStr, rec) ->
            parseDateTime date
              (if String.eqb timeStr "" then "00:00 AM" else timeStr) location
            = inr e ->
            timeError f
              (default "" (lastCell (indexHeaders 0 header ∅) "Day" 0 record))
              (default "" (lastCell (indexHeaders 0 header ∅) "Time" 0 record))
              (Errorf (timeFormatOf f) [Err e])) as Htimes.
  { intros header record date timeStr rec e Hcells Htime.
    apply rangeCells_day_time in Hcells as [<- <-].
    eapply timeError_of_parseDateTime, Htime. }
  destruct f; simpl in Hfail, result, Htimes;
    apply parseExport_error_source in Hfail
      as [Hread|[(header & rest & record & j & v & vars & -> & Hin & Hv & Hcell)
                |(header & rest & record & date & timeStr & rec & e & -> & Hin
                  & Hcells & Htime & ->)]];
    try (left; exact Hread);
    try (right; right; exists header, rest, record;
         split; [reflexivity|]; split; [exact Hin|];
         eapply Htimes; eassumption);
    right; left; exists header, rest, record, j, v;
    (split; [reflexivity|]); (split; [exact Hin|]); (split; [exact Hv|]).
  - eapply servingCell_inr, Hcell.
  - eapply exerciseCell_inr, Hcell.
  - eapply biometricCell_inr, Hcell.
Qed.

(** ** The properties of the rows and of the errors at concrete inputs *)

Lemma X1_witness :
  exists rec,
    decodeRowOf decimalAtof Servings (indexHeaders 0 repeatedNameHeader ∅) None
      repeatedNameRow = inl rec
    /\ lastCell (indexHeaders 0 repeatedNameHeader ∅) "Food Name" 0 repeatedNameRow
       = Some "Rolled oats"
    /\ ServingRecord.FoodName rec
       = default "" (lastCell (indexHeaders 0 repeatedNameHeader ∅) "Food Name" 0
                       repeatedNameRow).
Proof.
  eexists. split; [vm_compute; reflexivity|].
  split; [vm_compute; reflexivity|].
  refine (X1_text_field_is_last_cell decimalAtof Servings
            (indexHeaders 0 repeatedNameHeader ∅) None repeatedNameRow _
            "Food Name" ServingRecord.FoodName _ _).
  - simpl. elem_of_now.
  - vm_compute; reflexivity.
Defined.

Lemma X2_witness :
  exists rec,
    decodeRowOf decimalAtof Servings (indexHeaders 0 repeatedNameHeader ∅) None
      repeatedNameRow = inl rec
    /\ lastCell (indexHeaders 0 repeatedNameHeader ∅) "Iron (mg)" 0 repeatedNameRow
       = Some "1.5"
    /\ match lastCell (indexHeaders 0 repeatedNameHeader ∅) "Iron (mg)" 0
               repeatedNameRow with
       | None => ServingRecord.Nutrients rec IronMg = 0%float
       | Some v =>
           parseFloat decimalAtof v 64 = inl (ServingRecord.Nutrients rec IronMg)
       end.
Proof.
  eexists. split; [vm_compute; reflexivity|].
  split; [vm_compute; reflexivity|].
  refine (X2_nutrient_field_is_last_cell decimalAtof
            (indexHeaders 0 repeatedNameHeader ∅) None repeatedNameRow _
            "Iron (mg)" "iron" IronMg _ _); vm_compute; reflexivity.
Defined.

Lemma X3_witness :
  decodeRowOf decimalAtof Exercises (indexHeaders 0 exerciseHeader ∅) None
    exerciseRow1
  = inl (ExerciseRecord.mk (time_Date 2023 5 1 7 30 0 0 UTC) "Running"
           30%float 250.5%float)
  /\ match lastCell (indexHeaders 0 exerciseHeader ∅) "Minutes" 0 exerciseRow1 with
     | None => 30%float = 0%float
     | Some v => parseFloat decimalAtof v 64 = inl 30%float
     end
  /\ match lastCell (indexHeaders 0 exerciseHeader ∅) "Calories Burned" 0
             exerciseRow1 with
     | None => 250.5%float = 0%float
     | Some v => parseFloat decimalAtof v 64 = inl 250.5%float
     end.
Proof.
  split; [vm_compute; reflexivity|].
  refine (X3_exercise_numbers_are_last_cells decimalAtof
            (indexHeaders 0 exerciseHeader ∅) None exerciseRow1
            (ExerciseRecord.mk (time_Date 2023 5 1 7 30 0 0 UTC) "Running"
               30%float 250.5%float) _).
  vm_compute; reflexivity.
Defined.

Lemma X4_witness :
  exists rec,
    decodeRowOf decimalAtof Servings (indexHeaders 0 repeatedNameHeader ∅) None
      repeatedNameRow = inl rec
    /\ lastCell (indexHeaders 0 repeatedNameHeader ∅) "Amount" 0 repeatedNameRow
       = Some "40 g"
    /\ match lastCell (indexHeaders 0 repeatedNameHeader ∅) "Amount" 0
               repeatedNameRow with
       | None =>
           ServingRecord.QuantityValue rec = 0%float
           /\ ServingRecord.QuantityUnits rec = ""
       | Some v =>
           exists part0,
             cutAt " " v = Some (part0, ServingRecord.QuantityUnits rec)
             /\ parseFloat decimalAtof part0 64
                = inl (ServingRecord.QuantityValue rec)
       end.
Proof.
  eexists. split; [vm_compute; reflexivity|].
  split; [vm_compute; reflexivity|].
  refine (X4_serving_quantity_is_last_amount decimalAtof
            (indexHeaders 0 repeatedNameHeader ∅) None repeatedNameRow _ _).
  vm_compute; reflexivity.
Defined.

Lemma X5_witness :
  decodeRowOf decimalAtof Biometrics
    (indexHeaders 0 ["Time"; "Amount"; "Day"] ∅) None ["08:00"; "71.5"; "2023-05-01"]
  = inl (BiometricRecord.mk (time_Date 2023 5 1 8 0 0 0 UTC) "" "" 71.5%float)
  /\ parseDateTime
       (default "" (lastCell (indexHeaders 0 ["Time"; "Amount"; "Day"] ∅) "Day" 0
                      ["08:00"; "71.5"; "2023-05-01"]))
       (if String.eqb
             (default "" (lastCell (indexHeaders 0 ["Time"; "Amount"; "Day"] ∅)
                            "Time" 0 ["08:00"; "71.5"; "2023-05-01"])) ""
        then "00:00 AM"
        else default "" (lastCell (indexHeaders 0 ["Time"; "Amount"; "Day"] ∅)
                           "Time" 0 ["08:00"; "71.5"; "2023-05-01"]))
       None
     = inl (time_Date 2023 5 1 8 0 0 0 UTC).
Proof.
  split; [vm_compute; reflexivity|].
  refine (X5_timestamp_from_last_day_and_time decimalAtof Biometrics
            (indexHeaders 0 ["Time"; "Amount"; "Day"] ∅) None
            ["08:00"; "71.5"; "2023-05-01"]
            (BiometricRecord.mk (time_Date 2023 5 1 8 0 0 0 UTC) "" "" 71.5%float)
            _).
  vm_compute; reflexivity.
Defined.

Lemma X6_witness :
  Parse decimalAtof Exercises exerciseExport (Some (LoadLocation "Europe/Paris"))
  = ([ExerciseRecord.mk (time_Date 2023 5 1 7 30 0 0 (LoadLocation "Europe/Paris"))
        "Running" 30%float 250.5%float;
      ExerciseRecord.mk (time_Date 2023 5 2 18 0 0 0 (LoadLocation "Europe/Paris"))
        "Cycling" 45%float 0%float], None)
  /\ Forall (fun rec : ExerciseRecord.t =>
               Loc (ExerciseRecord.RecordedTime rec) = LoadLocation "Europe/Paris")
       [ExerciseRecord.mk (time_Date 2023 5 1 7 30 0 0 (LoadLocation "Europe/Paris"))
          "Running" 30%float 250.5%float;
        ExerciseRecord.mk (time_Date 2023 5 2 18 0 0 0 (LoadLocation "Europe/Paris"))
          "Cycling" 45%float 0%float].
Proof.
  split; [vm_compute; reflexivity|].
  refine (X6_records_are_in_the_location_of_the_call decimalAtof Exercises
            exerciseExport (Some (LoadLocation "Europe/Paris")) _ _).
  vm_compute; reflexivity.
Defined.

Lemma X8_witness :
  Parse decimalAtof Exercises exerciseExportBadRow None
  = ([], Some (Errorf "parsing energy: %s"
                 [Err (NumError "ParseFloat" "abc" ErrSyntax)]))
  /\ Parse decimalAtof Exercises
       (exerciseExportBadRow ++ [Fields exerciseRow1; Failed (ReadError "EOF in quoted field")])
       None
     = ([], Some (Errorf "parsing energy: %s"
                    [Err (NumError "ParseFloat" "abc" ErrSyntax)])).
Proof.
  split; [vm_compute; reflexivity|].
  refine (X8_failure_ignores_rest_of_input decimalAtof Exercises
            exerciseExportBadRow _ None [] _ _).
  vm_compute; reflexivity.
Defined.

Lemma X9_witness :
  Parse decimalAtof Exercises
    (Fields exerciseHeader :: map Fields [exerciseRow1; exerciseRow2]) None
  = (exerciseRecords, None).
Proof.
  refine (X9_rows_that_decode_are_returned decimalAtof Exercises exerciseHeader
            [exerciseRow1; exerciseRow2] None exerciseRecords _).
  repeat constructor; vm_compute; reflexivity.
Defined.

Lemma X10_witness :
  Parse decimalAtof Exercises
    (Fields exerciseHeader
     :: map Fields [exerciseRow1; exerciseRow2]
        ++ Fields exerciseRowBad :: [Fields exerciseRow1])
    None
  = ([], Some (Errorf "parsing energy: %s"
                 [Err (NumError "ParseFloat" "abc" ErrSyntax)]))
  /\ Parse decimalAtof Exercises
       (Fields exerciseHeader
        :: map Fields [exerciseRow1; exerciseRow2]
           ++ Failed (ReadError "wrong number of fields") :: [Fields exerciseRow1])
       None
     = ([], Some (ReadError "wrong number of fields")).
Proof.
  assert (Forall2 (fun row rec =>
                     decodeRowOf decimalAtof Exercises
                       (indexHeaders 0 exerciseHeader ∅) None row = inl rec)
            [exerciseRow1; exerciseRow2] exerciseRecords) as Hrows
    by (repeat constructor; vm_compute; reflexivity).
  split.
  - refine (proj1 (X10_first_failure_is_the_result decimalAtof Exercises
                     exerciseHeader _ None _ _ Hrows) exerciseRowBad _ _).
    vm_compute; reflexivity.
  - exact (proj2 (X10_first_failure_is_the_result decimalAtof Exercises
                    exerciseHeader _ None _ _ Hrows) _).
Defined.

Lemma X11_witness :
  Parse decimalAtof Exercises
    (Fields exerciseHeader :: map Fields ([exerciseRow1] ++ [exerciseRow2])) None
  = (take 1 exerciseRecords ++ drop 1 exerciseRecords, None).
Proof.
  refine (X11_exports_concatenate decimalAtof Exercises exerciseHeader
            [exerciseRow1] [exerciseRow2] None _ _ _ _);
    vm_compute; reflexivity.
Defined.

Lemma X12_witness :
  Failed (Errorf "parsing energy: %s" [Err (NumError "ParseFloat" "abc" ErrSyntax)])
    ∈ exerciseExportBadRow
  \/ (exists (header : list string) (rest : Reader) (record : list string)
        (i : nat) (v : string),
        exerciseExportBadRow = Fields header :: rest /\ Fields record ∈ rest
        /\ record !! i = Some v
        /\ cellError decimalAtof Exercises
             (headerAt (indexHeaders 0 header ∅) i) v
             (Errorf "parsing energy: %s"
                [Err (NumError "ParseFloat" "abc" ErrSyntax)]))
  \/ (exists (header : list string) (rest : Reader) (record : list string),
        exerciseExportBadRow = Fields header :: rest /\ Fields record ∈ rest
        /\ timeError Exercises
             (default "" (lastCell (indexHeaders 0 header ∅) "Day" 0 record))
             (default "" (lastCell (indexHeaders 0 header ∅) "Time" 0 record))
             (Errorf "parsing energy: %s"
                [Err (NumError "ParseFloat" "abc" ErrSyntax)])).
Proof.
  refine (X12_errors_of_a_call decimalAtof Exercises exerciseExportBadRow None
            [] _ _).
  vm_compute; reflexivity.
Defined.

(** ** The amount of a biometric record *)

Section TrackWhere.
Context {R : Type}.
Variable cell : string -> string -> string * string * R -> string * string * R + error.

(** [rangeCells_tracks] for a case that leaves some cells alone. *)
Lemma rangeCells_tracks_where (keep : string -> bool) (columnName : string)
    (Q : option string -> string * string * R -> Prop) :
  (forall v vars vars',
     keep v = true -> cell columnName v vars = inl vars' -> Q (Some v) vars') ->
  (forall name v vars vars' o,
     name <> columnName \/ keep v = false ->
     cell name v vars = inl vars' -> Q o vars -> Q o vars') ->
  forall headers record i vars vars' o,
    Q o vars ->
    rangeCells cell headers i record vars = inl vars' ->
    Q (match lastCellWhere keep headers columnName i record with
       | Some w => Some w
       | None => o
       end) vars'.
Proof.
  intros Hset Hkeep headers.
  induction record as [|v record IH]; intros i vars vars' o HQ; simpl.
  - intros [= <-]. exact HQ.
  - destruct (cell (headerAt headers i) v vars) as [vars1|e] eqn:Hcell;
      [|discriminate].
    intros Hrest.
    destruct (String.eqb_spec (headerAt headers i) columnName) as [Heq|Hne];
      [destruct (keep v) eqn:Hv|]; simpl.
    + rewrite Heq in Hcell.
      pose proof (IH (S i) vars1 vars' (Some v) (Hset _ _ _ Hv Hcell) Hrest) as H.
      destruct (lastCellWhere keep headers columnName (S i) record); exact H.
    + pose proof (IH (S i) vars1 vars' o
                    (Hkeep _ _ _ _ _ (or_intror Hv) Hcell HQ) Hrest) as H.
      destruct (lastCellWhere keep headers columnName (S i) record); exact H.
    + pose proof (IH (S i) vars1 vars' o
                    (Hkeep _ _ _ _ _ (or_introl Hne) Hcell HQ) Hrest) as H.
      destruct (lastCellWhere keep headers columnName (S i) record); exact H.
Qed.

End TrackWhere.

(** [X13] The amount of a biometric record is the number that the last
    cell without a slash under a column [Amount] converts to; cells with
    a slash do not count, before it or after it, and a row with no cell
    without a slash under such a column has the amount 0. *)
Theorem X13_biometric_amount_is_last_plain_cell
    (atof : string -> Z -> float64 + strconvErr)
    (headers : gmap nat string) (location : option Location)
    (record : list string) (rec : BiometricRecord.t)
    (Hrow : decodeRowOf atof Biometrics headers location record = inl rec) :
  match lastCellWhere (fun v => negb (strings_Contains v "/")) headers "Amount" 0
          record with
  | None => BiometricRecord.Amount rec = 0%float
  | Some v => parseFloat atof v 64 = inl (BiometricRecord.Amount rec)
  end.
Proof.
  simpl in Hrow.
  apply decodeRow_inl in Hrow as (date & timeStr & rec0 & t & Hcells & _ & ->).
  unshelve epose proof
    (rangeCells_tracks_where (biometricCell atof)
       (fun v => negb (strings_Contains v "/")) "Amount"
       (fun o vars =>
          match o with
          | None => BiometricRecord.Amount vars.2 = 0%float
          | Some v => parseFloat atof v 64 = inl (BiometricRecord.Amount vars.2)
          end)
       _ _ headers record 0 ("", "", BiometricRecord.zero) _ None eq_refl Hcells)
    as Htrack.
  - intros v [[d ti] r] [[d' ti'] r'] Hv Hcell. cbn [snd].
    apply negb_true_iff in Hv.
    apply biometricCell_inl in Hcell.
    repeat match goal with
           | H : _ \/ _ |- _ => destruct H
           | H : _ /\ _ |- _ => destruct H
           | H : exists _, _ |- _ => destruct H
           end; simplify_eq; first [assumption | congruence | idtac].
    match goal with H : _ ∉ _ |- _ => exfalso; apply H; elem_of_now end.
  - intros name v [[d ti] r] [[d' ti'] r'] o Hwhy Hcell Hq. cbn [snd] in *.
    apply biometricCell_inl in Hcell.
    repeat match goal with
           | H : _ \/ _ |- _ => destruct H
           | H : _ /\ _ |- _ => destruct H
           | H : exists _, _ |- _ => destruct H
           end; subst; try exact Hq; try done.
    match goal with H : negb _ = false |- _ => apply negb_false_iff in H end.
    congruence.
  - cbn [snd] in Htrack.
    destruct (lastCellWhere _ headers "Amount" 0 record); exact Htrack.
Qed.

Lemma X13_witness :
  decodeRowOf decimalAtof Biometrics
    (indexHeaders 0 ["Day"; "Time"; "Amount"; "Amount"] ∅) None
    ["2023-05-01"; "08:00"; "71.5"; "120/80"]
  = inl (BiometricRecord.mk (time_Date 2023 5 1 8 0 0 0 UTC) "" "" 71.5%float)
  /\ match lastCellWhere (fun v => negb (strings_Contains v "/"))
             (indexHeaders 0 ["Day"; "Time"; "Amount"; "Amount"] ∅) "Amount" 0
             ["2023-05-01"; "08:00"; "71.5"; "120/80"] with
     | None => 71.5%float = 0%float
     | Some v => parseFloat decimalAtof v 64 = inl 71.5%float
     end.
Proof.
  split; [vm_compute; reflexivity|].
  refine (X13_biometric_amount_is_last_plain_cell decimalAtof
            (indexHeaders 0 ["Day"; "Time"; "Amount"; "Amount"] ∅) None
            ["2023-05-01"; "08:00"; "71.5"; "120/80"]
            (BiometricRecord.mk (time_Date 2023 5 1 8 0 0 0 UTC) "" "" 71.5%float)
            _).
  vm_compute; reflexivity.
Defined.
